(** * usv_script.py: the appointment rescheduling loop

    A shallow embedding of [src/usv_script.py].  The script drives a browser
    through Playwright: it signs in, opens the scheduling page, sweeps the
    facilities offered by the form and books the first slot it finds, and
    starts over after a fixed pause until a booking succeeds.

    The browser is outside the script, so it is an interface here
    ([Driver]): every Playwright call of the source is one operation of the
    interface, which answers with a value or with a raised exception and
    moves the browser to a new state.  The script itself is written in a
    small monad that threads the browser state, the local variables of
    [login_and_schedule], raised exceptions and the list of calls made. *)

From Stdlib Require Import List String Ascii Bool Arith NArith Lia DecimalString.
Import ListNotations.
Local Open Scope string_scope.
Set Warnings "-abstract-large-number".

(** ** Python values and exceptions *)

(** The exceptions the script can meet, all subclasses of [Exception]:
    Playwright's [TimeoutError] and its base [Error], and the two built-in
    ones raised by the script's own expressions on [None]. *)
Inductive exn : Type :=
| TimeoutError (msg : string)
| PlaywrightError (msg : string)
| AttributeError (msg : string)
| TypeError (msg : string).

(** [str(e)], as interpolated by the f-strings of the log calls. *)
Definition exn_str (e : exn) : string :=
  match e with
  | TimeoutError m | PlaywrightError m | AttributeError m | TypeError m => m
  end.

(** [isinstance(e, TimeoutError)]: what [except TimeoutError] tests. *)
Definition is_TimeoutError (e : exn) : bool :=
  match e with TimeoutError _ => true | _ => false end.

Inductive result (A : Type) : Type :=
| Ret (a : A)
| Raise (e : exn).
Arguments Ret {A} a.
Arguments Raise {A} e.

(** Truth value of an [Optional[str]]: [None] and [''] are false. *)
Definition truthy (o : option string) : bool :=
  match o with
  | None => false
  | Some s => negb (s =? "")
  end.

(** [f"{v}"] for an [Optional[str]]. *)
Definition str_opt (o : option string) : string :=
  match o with Some s => s | None => "None" end.

(** [f"{n}"] for a non-negative [int]. *)
Definition str_nat (n : nat) : string :=
  NilEmpty.string_of_uint (Nat.to_uint n).

Inductive level : Type := INFO | WARNING | ERROR.

(** ** Constants of the script (lines 19-22) *)

Definition RETRY_INTERVAL : nat := 60.
Definition PAGE_TIMEOUT : nat := 15000.
Definition SLEEP_AFTER_SELECT : nat := 10.
Definition HEADLESS_MODE : bool := true.

(** ** [re.search(r"/schedule/(\d+)/continue_actions", s).group(1)]

    A Python [str] is a sequence of code points; a [string] here is its
    UTF-8 text, one byte for each [ascii].  The pattern is a [str] pattern,
    so [\d] matches one character of the Unicode category Nd (decimal
    digit), of which [0-9] are ten.  The literal parts of the pattern are
    ASCII, and an ASCII byte of a UTF-8 text is never a part of a longer
    character, so they are compared byte by byte. *)
Module Re.

(** The category Nd of the Unicode database (version 14.0, the one of
    CPython 3.11), as ranges of code points. *)
Definition Nd : list (N * N) :=
  [(48, 57); (1632, 1641); (1776, 1785); (1984, 1993); (2406, 2415);
   (2534, 2543); (2662, 2671); (2790, 2799); (2918, 2927); (3046, 3055);
   (3174, 3183); (3302, 3311); (3430, 3439); (3558, 3567); (3664, 3673);
   (3792, 3801); (3872, 3881); (4160, 4169); (4240, 4249); (6112, 6121);
   (6160, 6169); (6470, 6479); (6608, 6617); (6784, 6793); (6800, 6809);
   (6992, 7001); (7088, 7097); (7232, 7241); (7248, 7257); (42528, 42537);
   (43216, 43225); (43264, 43273); (43472, 43481); (43504, 43513);
   (43600, 43609); (44016, 44025); (65296, 65305); (66720, 66729);
   (68912, 68921); (69734, 69743); (69872, 69881); (69942, 69951);
   (70096, 70105); (70384, 70393); (70736, 70745); (70864, 70873);
   (71248, 71257); (71360, 71369); (71472, 71481); (71904, 71913);
   (72016, 72025); (72784, 72793); (73040, 73049); (73120, 73129);
   (92768, 92777); (92864, 92873); (93008, 93017); (120782, 120831);
   (123200, 123209); (123632, 123641); (125264, 125273);
   (130032, 130041)]%N.

(** [Py_UNICODE_ISDECIMAL]: what [\d] tests on a character of a [str]. *)
Definition is_decimal (c : N) : bool :=
  existsb (fun r => (fst r <=? c) && (c <=? snd r))%N Nd.

Definition byte (n : N) : ascii := ascii_of_N n.

(** The UTF-8 text of one code point. *)
Definition utf8 (c : N) : string :=
  (if c <? 128 then String (byte c) ""
   else if c <? 2048 then
     String (byte (192 + c / 64)) (String (byte (128 + c mod 64)) "")
   else if c <? 65536 then
     String (byte (224 + c / 4096))
       (String (byte (128 + (c / 64) mod 64))
          (String (byte (128 + c mod 64)) ""))
   else
     String (byte (240 + c / 262144))
       (String (byte (128 + (c / 4096) mod 64))
          (String (byte (128 + (c / 64) mod 64))
             (String (byte (128 + c mod 64)) ""))))%N.

(** The six low bits of a byte. *)
Definition low6 (b : ascii) : N := (N_of_ascii b mod 64)%N.

(** The first character of the text [s]: [some c rest] when [s] starts
    with the UTF-8 text of the code point [c] and goes on with [rest],
    [none] when [s] is empty or does not start with a well-formed
    character.  The bytes read are taken as a character only if they are
    the text of the code point they give. *)
Definition first_char {A : Type} (s : string) (none : A)
  (some : N -> string -> A) : A :=
  match s with
  | EmptyString => none
  | String b0 s0 =>
      let n0 := N_of_ascii b0 in
      if (n0 <? 128)%N then some n0 s0
      else
        match s0 with
        | EmptyString => none
        | String b1 s1 =>
            let c2 := ((n0 - 192) * 64 + low6 b1)%N in
            if utf8 c2 =? String b0 (String b1 "") then some c2 s1
            else
              match s1 with
              | EmptyString => none
              | String b2 s2 =>
                  let c3 := (((n0 - 224) * 64 + low6 b1) * 64 + low6 b2)%N in
                  if utf8 c3 =? String b0 (String b1 (String b2 ""))
                  then some c3 s2
                  else
                    match s2 with
                    | EmptyString => none
                    | String b3 s3 =>
                        let c4 := ((((n0 - 240) * 64 + low6 b1) * 64
                                    + low6 b2) * 64 + low6 b3)%N in
                        if utf8 c4
                           =? String b0 (String b1 (String b2 (String b3 "")))
                        then some c4 s3
                        else none
                    end
              end
        end
  end.

(** [\d+], greedy: the longest run of decimal digits at the head of [s],
    and what follows it. *)
Fixpoint span_digits (s : string) : string * string :=
  first_char s (EmptyString, s)
    (fun c rest =>
       if is_decimal c
       then let (ds, tl) := span_digits rest in (utf8 c ++ ds, tl)
       else (EmptyString, s)).

(** [strip p s]: [s] without its prefix [p], if it has it. *)
Fixpoint strip (p s : string) : option string :=
  match p, s with
  | EmptyString, _ => Some s
  | String a p', String b s' => if Ascii.eqb a b then strip p' s' else None
  | String _ _, EmptyString => None
  end.

(** The pattern anchored at the head of [s]; the result is group 1.  The
    digits are followed by a slash, which is no digit, so the greedy run is
    the only split. *)
Definition match_here (s : string) : option string :=
  match strip "/schedule/" s with
  | None => None
  | Some rest =>
      let (ds, tl) := span_digits rest in
      match ds, strip "/continue_actions" tl with
      | String _ _, Some _ => Some ds
      | _, _ => None
      end
  end.

(** The leftmost match, as [re.search] finds it.  The first byte of a
    match is the slash, so no match starts inside a character. *)
Fixpoint search (s : string) : option string :=
  match match_here s with
  | Some g => Some g
  | None =>
      match s with
      | EmptyString => None
      | String _ s' => search s'
      end
  end.

(** [''.join(chr(c) for c in cs)], as text. *)
Definition text (cs : list N) : string :=
  fold_right (fun c s => utf8 c ++ s) EmptyString cs.

End Re.

(** ** The browser, as the script sees it *)

(** [handle_confirm] (lines 106-108), the callback given to [page.on]: the
    browser runs it when a dialog opens.  It accepts the dialog and writes
    one log record. *)
Inductive dialog_reply : Type := DialogAccept | DialogDismiss.

Record callback : Type := mkCallback {
  cb_reply : dialog_reply;
  cb_log : level * string
}.

Definition handle_confirm : callback :=
  {| cb_reply := DialogAccept;
     cb_log := (INFO, "Confirmed the reschedule action.") |}.

(** One operation per Playwright call of the source.  Each takes the
    browser state and gives the call's answer and the next state. *)
Class Driver : Type := {
  dstate : Type;
  playwright : Type;
  browser : Type;
  context : Type;
  page : Type;
  elem : Type;
  sync_playwright_enter : dstate -> result playwright * dstate;
  sync_playwright_exit : playwright -> dstate -> result unit * dstate;
  chromium_launch : playwright -> bool -> dstate -> result browser * dstate;
  browser_new_context : browser -> dstate -> result context * dstate;
  context_new_page : context -> dstate -> result page * dstate;
  context_close : context -> dstate -> result unit * dstate;
  browser_close : browser -> dstate -> result unit * dstate;
  page_goto : page -> string -> dstate -> result unit * dstate;
  page_fill : page -> string -> string -> dstate -> result unit * dstate;
  page_evaluate : page -> string -> dstate -> result unit * dstate;
  page_click : page -> string -> dstate -> result unit * dstate;
  page_wait_for_selector :
    page -> string -> nat -> dstate -> result unit * dstate;
  page_wait_for_load_state : page -> string -> dstate -> result unit * dstate;
  page_get_attribute :
    page -> string -> string -> dstate -> result (option string) * dstate;
  page_query_selector :
    page -> string -> dstate -> result (option elem) * dstate;
  page_query_selector_all :
    page -> string -> dstate -> result (list elem) * dstate;
  page_select_option :
    page -> string -> option string -> dstate -> result unit * dstate;
  page_on : page -> string -> callback -> dstate -> result unit * dstate;
  elem_inner_text : elem -> dstate -> result string * dstate;
  elem_get_attribute :
    elem -> string -> dstate -> result (option string) * dstate;
  elem_is_visible : elem -> dstate -> result bool * dstate;
  elem_is_disabled : elem -> dstate -> result bool * dstate;
  elem_query_selector_all :
    elem -> string -> dstate -> result (list elem) * dstate;
  elem_select_option :
    elem -> option string -> dstate -> result unit * dstate;
  elem_click : elem -> dstate -> result unit * dstate
}.

(** A double quote, for the one script text that holds some. *)
Definition dq : string := String (ascii_of_nat 34) EmptyString.

(** The selectors and addresses of the source. *)
Definition SIGN_IN_URL : string :=
  "https://ais.usvisa-info.com/en-ca/niv/users/sign_in".
Definition SEL_EMAIL : string := "input[name='user[email]']".
Definition SEL_PASSWORD : string := "input[name='user[password]']".
Definition JS_POLICY : string :=
  "document.querySelector('input[name=" ++ dq ++ "policy_confirmed" ++ dq
  ++ "]').click()".
Definition SEL_COMMIT : string := "input[type='submit'][name='commit']".
Definition SEL_LOGGED_IN : string :=
  "div.application.attend_appointment.card.success".
Definition SEL_CONTINUE : string :=
  "a.button.primary.small[href*='continue_actions']".
Definition SEL_BUSY : string := "#consulate_date_time_not_available".
Definition SEL_DATE : string := "#appointments_consulate_appointment_date".
Definition SEL_TIME : string := "#appointments_consulate_appointment_time".
Definition SEL_TIME_OPTIONS : string := "option[value]:not([value=''])".
Definition SEL_FACILITY : string :=
  "#appointments_consulate_appointment_facility_id".
Definition SEL_FACILITY_OPTIONS : string :=
  "#appointments_consulate_appointment_facility_id option[value]".
Definition SEL_SUBMIT : string := "#appointments_submit".

Definition appointment_url (appointment_number : string) : string :=
  "https://ais.usvisa-info.com/en-ca/niv/schedule/" ++ appointment_number
  ++ "/appointment".

(** ** The script *)

Section Script.

Context {D : Driver}.

(** The credentials the script reads from its configuration file when it is
    loaded (lines 12-16); they do not change afterwards. *)
Variables username password : string.

(** What the script does to the world, in the order it does it: the
    Playwright calls with their arguments, the pauses and the log records. *)
Inductive event : Type :=
| EvEnter
| EvExit (p : playwright)
| EvLaunch (p : playwright) (headless : bool)
| EvNewContext (b : browser)
| EvNewPage (c : context)
| EvContextClose (c : context)
| EvBrowserClose (b : browser)
| EvGoto (pg : page) (url : string)
| EvFill (pg : page) (sel value : string)
| EvEvaluate (pg : page) (script : string)
| EvClick (pg : page) (sel : string)
| EvWaitForSelector (pg : page) (sel : string) (timeout : nat)
| EvWaitForLoadState (pg : page) (st : string)
| EvGetAttribute (pg : page) (sel name : string)
| EvQuerySelector (pg : page) (sel : string)
| EvQuerySelectorAll (pg : page) (sel : string)
| EvSelectOption (pg : page) (sel : string) (value : option string)
| EvOn (pg : page) (name : string) (cb : callback)
| EvInnerText (e : elem)
| EvElemGetAttribute (e : elem) (name : string)
| EvIsVisible (e : elem)
| EvIsDisabled (e : elem)
| EvElemQuerySelectorAll (e : elem) (sel : string)
| EvElemSelectOption (e : elem) (value : option string)
| EvElemClick (e : elem)
| EvSleep (seconds : nat)
| EvLog (lvl : level) (msg : string).

(** The local variables of [login_and_schedule] that its [finally] clause
    looks up in [locals()].  They are bound by the assignment of line 129
    and keep their value from one turn of the loop to the next. *)
Record Locals : Type := mkLocals {
  l_browser : option browser;
  l_context : option context;
  l_page : option page
}.

Definition no_locals : Locals :=
  {| l_browser := None; l_context := None; l_page := None |}.

Record state : Type := mkState {
  drv : dstate;
  vars : Locals
}.

(** A computation answers with a value or a raised exception, a new state
    and the events it performed. *)
Definition M (A : Type) : Type := state -> result A * state * list event.

Definition ret {A} (a : A) : M A := fun s => (Ret a, s, []).

Definition raise {A} (e : exn) : M A := fun s => (Raise e, s, []).

(** [prefix_events t x]: the outcome [x] of what runs next, after the
    events [t] already performed. *)
Definition prefix_events {A} (t : list event)
  (x : result A * state * list event) : result A * state * list event :=
  let '(r, s, t') := x in (r, s, (t ++ t')%list).

Definition bind {A B} (m : M A) (k : A -> M B) : M B :=
  fun s =>
    match m s with
    | (Ret a, s1, t1) => prefix_events t1 (k a s1)
    | (Raise e, s1, t1) => (Raise e, s1, t1)
    end.

(** [try: body except Exception as e: handler e]. *)
Definition try_except {A} (body : M A) (handler : exn -> M A) : M A :=
  fun s =>
    match body s with
    | (Ret a, s1, t1) => (Ret a, s1, t1)
    | (Raise e, s1, t1) => prefix_events t1 (handler e s1)
    end.

(** [try: body finally: fin].  [fin] runs whatever [body] did; if [fin]
    itself raises, that exception replaces the outcome of [body]. *)
Definition try_finally {A} (body : M A) (fin : M unit) : M A :=
  fun s =>
    let '(r, s1, t1) := body s in
    match fin s1 with
    | (Ret _, s2, t2) => (r, s2, (t1 ++ t2)%list)
    | (Raise e, s2, t2) => (Raise e, s2, (t1 ++ t2)%list)
    end.

(** One Playwright call: the browser answers and moves on. *)
Definition call {A} (ev : event) (op : dstate -> result A * dstate) : M A :=
  fun s =>
    let (r, d) := op (drv s) in
    (r, {| drv := d; vars := vars s |}, [ev]).

Definition log (lvl : level) (msg : string) : M unit :=
  fun s => (Ret tt, s, [EvLog lvl msg]).

(** [time.sleep(seconds)]. *)
Definition sleep (seconds : nat) : M unit :=
  fun s => (Ret tt, s, [EvSleep seconds]).

Definition get_locals : M Locals := fun s => (Ret (vars s), s, []).

Definition set_locals (l : Locals) : M unit :=
  fun s => (Ret tt, {| drv := drv s; vars := l |}, []).

(** [o.attr] where [o] may be [None]. *)
Definition deref {A} (o : option A) (attr : string) : M A :=
  match o with
  | Some a => ret a
  | None =>
      raise (AttributeError
               ("'NoneType' object has no attribute '" ++ attr ++ "'"))
  end.

Notation "x <- m ;; k" := (bind m (fun x => k))
  (at level 61, m at next level, right associativity).
Notation "m ;; k" := (bind m (fun _ => k))
  (at level 61, right associativity).

(** A [for] loop whose body may [return]: [Some r] leaves the loop with
    [r], [None] goes on with the next element. *)
Fixpoint for_each {X R} (body : X -> M (option R)) (xs : list X)
  : M (option R) :=
  match xs with
  | [] => ret None
  | x :: rest =>
      r <- body x ;;
      match r with
      | Some v => ret (Some v)
      | None => for_each body rest
      end
  end.

(** [launch_browser_in_incognito] (lines 24-29). *)
Definition launch_browser_in_incognito (p : playwright)
  : M (browser * context * page) :=
  b <- call (EvLaunch p HEADLESS_MODE) (chromium_launch p HEADLESS_MODE) ;;
  c <- call (EvNewContext b) (browser_new_context b) ;;
  pg <- call (EvNewPage c) (context_new_page c) ;;
  ret (b, c, pg).

(** [login] (lines 31-47).  Both handlers log and raise the exception
    again. *)
Definition login (pg : page) : M unit :=
  try_except
    (call (EvGoto pg SIGN_IN_URL) (page_goto pg SIGN_IN_URL) ;;
     log INFO "Opened login page." ;;
     call (EvFill pg SEL_EMAIL username) (page_fill pg SEL_EMAIL username) ;;
     call (EvFill pg SEL_PASSWORD password)
          (page_fill pg SEL_PASSWORD password) ;;
     call (EvEvaluate pg JS_POLICY) (page_evaluate pg JS_POLICY) ;;
     call (EvClick pg SEL_COMMIT) (page_click pg SEL_COMMIT) ;;
     call (EvWaitForSelector pg SEL_LOGGED_IN PAGE_TIMEOUT)
          (page_wait_for_selector pg SEL_LOGGED_IN PAGE_TIMEOUT) ;;
     log INFO "Successfully logged in.")
    (fun e =>
       if is_TimeoutError e
       then log ERROR "Login page did not load in time." ;; raise e
       else log ERROR ("Error during login: " ++ exn_str e) ;; raise e).

(** [re.search(...)] of line 53 on what [get_attribute] gave: a [TypeError]
    on [None]; [.group(1)] on a failed search is an [AttributeError]. *)
Definition search_appointment_number (href : option string) : M string :=
  match href with
  | None => raise (TypeError "expected string or bytes-like object")
  | Some h => deref (Re.search h) "group"
  end.

(** [navigate_to_appointment] (lines 49-60). *)
Definition navigate_to_appointment (pg : page) : M unit :=
  try_except
    (continue_button_href <-
       call (EvGetAttribute pg SEL_CONTINUE "href")
            (page_get_attribute pg SEL_CONTINUE "href") ;;
     appointment_number <- search_appointment_number continue_button_href ;;
     call (EvGoto pg (appointment_url appointment_number))
          (page_goto pg (appointment_url appointment_number)) ;;
     call (EvWaitForLoadState pg "load") (page_wait_for_load_state pg "load") ;;
     log INFO "Navigated to the appointment scheduling page.")
    (fun e =>
       log ERROR ("Error navigating to the appointment page: " ++ exn_str e) ;;
       raise e).

(** The [try] suite of [select_date_and_time] (lines 65-88). *)
Definition select_date_and_time_body (pg : page) : M bool :=
  busy_error <- call (EvQuerySelector pg SEL_BUSY)
                     (page_query_selector pg SEL_BUSY) ;;
  busy <- match busy_error with
          | Some el => call (EvIsVisible el) (elem_is_visible el)
          | None => ret false
          end ;;
  if (busy : bool) then
    log WARNING "System is busy. No date or time available." ;;
    ret false
  else
    call (EvClick pg SEL_DATE) (page_click pg SEL_DATE) ;;
    date_input <- call (EvQuerySelector pg SEL_DATE)
                       (page_query_selector pg SEL_DATE) ;;
    date_input <- deref date_input "get_attribute" ;;
    available_date <- call (EvElemGetAttribute date_input "value")
                           (elem_get_attribute date_input "value") ;;
    if truthy available_date then
      log INFO ("Selected available date: " ++ str_opt available_date) ;;
      time_dropdown <- call (EvQuerySelector pg SEL_TIME)
                            (page_query_selector pg SEL_TIME) ;;
      time_dropdown <- deref time_dropdown "query_selector_all" ;;
      available_times <-
        call (EvElemQuerySelectorAll time_dropdown SEL_TIME_OPTIONS)
             (elem_query_selector_all time_dropdown SEL_TIME_OPTIONS) ;;
      match available_times with
      | first :: _ =>
          first_available_time <-
            call (EvElemGetAttribute first "value")
                 (elem_get_attribute first "value") ;;
          call (EvElemSelectOption time_dropdown first_available_time)
               (elem_select_option time_dropdown first_available_time) ;;
          log INFO ("Selected available time: "
                    ++ str_opt first_available_time) ;;
          ret true
      | [] =>
          log WARNING "No available times found." ;;
          ret false
      end
    else
      log WARNING "No available date found." ;;
      ret false.

(** [select_date_and_time] (lines 62-91). *)
Definition select_date_and_time (pg : page) : M bool :=
  try_except (select_date_and_time_body pg)
    (fun e =>
       log ERROR ("Error selecting date and time: " ++ exn_str e) ;;
       ret false).

(** The first half of the body of the [for] loop of [check_and_reschedule]
    (lines 97-103): the option is chosen in the facility selector and the
    submit control is looked up.  The answer is [location_name] and
    [reschedule_button]. *)
Definition approach (pg : page) (opt : elem) : M (string * option elem) :=
  location_name <- call (EvInnerText opt) (elem_inner_text opt) ;;
  location_value <- call (EvElemGetAttribute opt "value")
                         (elem_get_attribute opt "value") ;;
  call (EvSelectOption pg SEL_FACILITY location_value)
       (page_select_option pg SEL_FACILITY location_value) ;;
  log INFO ("Checking location: " ++ location_name) ;;
  call (EvWaitForSelector pg SEL_SUBMIT PAGE_TIMEOUT)
       (page_wait_for_selector pg SEL_SUBMIT PAGE_TIMEOUT) ;;
  reschedule_button <- call (EvQuerySelector pg SEL_SUBMIT)
                            (page_query_selector pg SEL_SUBMIT) ;;
  ret (location_name, reschedule_button).

(** The nested [if] statements of lines 104-113: [true] stands for
    reaching the [return True] of line 113, [false] for falling through. *)
Definition attempt (pg : page) (location_name : string)
  (reschedule_button : option elem) : M bool :=
  match reschedule_button with
  | Some button =>
      disabled <- call (EvIsDisabled button) (elem_is_disabled button) ;;
      if (disabled : bool) then ret false
      else
        found <- select_date_and_time pg ;;
        if (found : bool) then
          call (EvOn pg "dialog" handle_confirm)
               (page_on pg "dialog" handle_confirm) ;;
          call (EvElemClick button) (elem_click button) ;;
          log INFO ("Rescheduled successfully at location: "
                    ++ location_name ++ ".") ;;
          ret true
        else ret false
  | None => ret false
  end.

(** The body of the [for] loop (lines 97-116) for one option of the
    facility selector.  [Some true] is the [return True] of line 113;
    [None] is the end of the body, after the pause. *)
Definition visit (pg : page) (opt : elem) : M (option bool) :=
  found <- approach pg opt ;;
  let '(location_name, reschedule_button) := found in
  booked <- attempt pg location_name reschedule_button ;;
  if (booked : bool) then ret (Some true)
  else
    log INFO ("No available appointments at " ++ location_name ++ ".") ;;
    sleep SLEEP_AFTER_SELECT ;;
    ret None.

(** The [for] loop of [check_and_reschedule] over the options found. *)
Definition sweep (pg : page) (options : list elem) : M (option bool) :=
  for_each (visit pg) options.

(** [check_and_reschedule] (lines 93-122).  One [try] encloses the whole
    loop. *)
Definition check_and_reschedule (pg : page) : M bool :=
  try_except
    (options <- call (EvQuerySelectorAll pg SEL_FACILITY_OPTIONS)
                     (page_query_selector_all pg SEL_FACILITY_OPTIONS) ;;
     r <- sweep pg options ;;
     match r with
     | Some v => ret v
     | None =>
         log INFO "Cycle completed. Restarting the check for each location." ;;
         ret false
     end)
    (fun e =>
       log ERROR ("Error during location check and reschedule: "
                  ++ exn_str e) ;;
       ret false).

(** How a turn of the [while True] loop ends: [break], or on to the next. *)
Inductive signal : Type := Break | Next.

(** Lines 131-136 of the [try] suite, once the session is there. *)
Definition login_and_reschedule (pg : page) : M signal :=
  login pg ;;
  navigate_to_appointment pg ;;
  booked <- check_and_reschedule pg ;;
  if (booked : bool) then
    log INFO "Appointment successfully rescheduled. Exiting." ;;
    ret Break
  else ret Next.

(** What line 129 binds. *)
Definition session_locals (b : browser) (c : context) (pg : page) : Locals :=
  {| l_browser := Some b; l_context := Some c; l_page := Some pg |}.

(** The [try] suite of the loop (lines 129-136). *)
Definition try_suite (p : playwright) : M signal :=
  session <- launch_browser_in_incognito p ;;
  let '(b, c, pg) := session in
  set_locals (session_locals b c pg) ;;
  login_and_reschedule pg.

(** The text of the two log records of lines 139 and 141. *)
Definition retry_message (e : exn) : string :=
  if is_TimeoutError e then
    "Timeout error: " ++ exn_str e ++ ". Retrying in "
    ++ str_nat RETRY_INTERVAL ++ " seconds..."
  else
    "Encountered an error: " ++ exn_str e ++ ". Retrying in "
    ++ str_nat RETRY_INTERVAL ++ " seconds...".

(** The two [except] clauses (lines 138-141): each writes its log record
    and lets the loop go on. *)
Definition except_clauses (e : exn) : M signal :=
  if is_TimeoutError e then
    log ERROR (retry_message e) ;;
    ret Next
  else
    log ERROR (retry_message e) ;;
    ret Next.

(** The [finally] clause (lines 143-148). *)
Definition finally_clause : M unit :=
  l <- get_locals ;;
  match l_context l with
  | Some c => call (EvContextClose c) (context_close c)
  | None => ret tt
  end ;;
  match l_browser l with
  | Some b => call (EvBrowserClose b) (browser_close b)
  | None => ret tt
  end ;;
  sleep RETRY_INTERVAL.

(** One turn of the loop: a retry cycle. *)
Definition cycle (p : playwright) : M signal :=
  try_finally (try_except (try_suite p) except_clauses) finally_clause.

(** [while True], cut after [fuel] turns: [None] says the loop is still
    running, [Some tt] that it was left by [break]. *)
Fixpoint while_true (fuel : nat) (body : M signal) : M (option unit) :=
  match fuel with
  | O => ret None
  | S n =>
      sig <- body ;;
      match sig with
      | Break => ret (Some tt)
      | Next => while_true n body
      end
  end.

(** [login_and_schedule] (lines 124-148).  The function starts with no
    local variable bound; the [with] statement leaves Playwright when the
    loop is left, by [break] or by an exception. *)
Definition login_and_schedule (fuel : nat) : M (option unit) :=
  set_locals no_locals ;;
  p <- call EvEnter sync_playwright_enter ;;
  r <- try_except (while_true fuel (cycle p))
         (fun e => call (EvExit p) (sync_playwright_exit p) ;; raise e) ;;
  match r with
  | Some _ => call (EvExit p) (sync_playwright_exit p) ;; ret (Some tt)
  | None => ret None
  end.

End Script.

Arguments event {D}.
Arguments state {D}.
Arguments Locals {D}.

(** ** A scripted site

    A browser double to run the script on: the site is a list of
    facilities, each with the controls the script looks at, and every
    launch of the browser meets the next prepared visit. *)
Module Site.

Inductive SubmitControl : Type := SubmitAbsent | SubmitDisabled | SubmitEnabled.

Inductive Indicator : Type := IndicatorAbsent | IndicatorHidden | IndicatorVisible.

Record Facility : Type := mkFacility {
  fac_label : string;
  fac_value : string;
  fac_submit : SubmitControl;
  fac_busy : Indicator;
  (** the date input is on the page *)
  fac_date_input : bool;
  (** the [value] of the date input once it has been clicked *)
  fac_date : option string;
  (** the [value] attribute of each [option] of the time control, in
      document order; [None] is an option without the attribute *)
  fac_times : list (option string)
}.

Record Visit : Type := mkVisit {
  (** the success card shows up after the sign-in form is sent *)
  v_signed_in : bool;
  (** the [href] of the continue link; [None] when there is no link *)
  v_continue : option string;
  v_facilities : list Facility
}.

Inductive Element : Type :=
| BusyIndicator
| DateInput
| TimeDropdown
| SubmitButton
| FacilityOption (f : Facility)
| TimeOption (value : option string).

Record World : Type := mkWorld {
  (** what the coming launches meet; [None]: the browser does not start *)
  w_future : list (option Visit);
  w_now : option Visit;
  w_chosen : option Facility;
  w_launched : nat;
  (** the browsers started and not yet closed *)
  w_open : list nat
}.

Definition timeout_exceeded (ms : nat) : exn :=
  TimeoutError ("Timeout " ++ str_nat ms ++ "ms exceeded.").

Definition chosen_submit (w : World) : SubmitControl :=
  match w_chosen w with Some f => fac_submit f | None => SubmitAbsent end.

Definition chosen_busy (w : World) : Indicator :=
  match w_chosen w with Some f => fac_busy f | None => IndicatorAbsent end.

Definition chosen_date_input (w : World) : bool :=
  match w_chosen w with Some f => fac_date_input f | None => true end.

(** [page.click] waits for its target and times out without it. *)
Definition click (sel : string) (w : World) : result unit * World :=
  if (sel =? SEL_DATE) && negb (chosen_date_input w)
  then (Raise (timeout_exceeded 30000), w)
  else (Ret tt, w).

Definition launch (w : World) : result nat * World :=
  match w_future w with
  | Some v :: rest =>
      (Ret (w_launched w),
       {| w_future := rest; w_now := Some v; w_chosen := None;
          w_launched := S (w_launched w);
          w_open := w_launched w :: w_open w |})
  | None :: rest =>
      (Raise (PlaywrightError "Browser closed unexpectedly"),
       {| w_future := rest; w_now := w_now w; w_chosen := w_chosen w;
          w_launched := w_launched w; w_open := w_open w |})
  | [] => (Raise (PlaywrightError "Browser closed unexpectedly"), w)
  end.

(** Closing a browser that is already closed changes nothing. *)
Definition close_browser (b : nat) (w : World) : result unit * World :=
  (Ret tt,
   {| w_future := w_future w; w_now := w_now w; w_chosen := w_chosen w;
      w_launched := w_launched w;
      w_open := filter (fun n => negb (n =? b)%nat) (w_open w) |}).

Definition wait_for_selector (sel : string) (ms : nat) (w : World)
  : result unit * World :=
  if sel =? SEL_LOGGED_IN then
    match w_now w with
    | Some v => if v_signed_in v then (Ret tt, w)
                else (Raise (timeout_exceeded ms), w)
    | None => (Raise (timeout_exceeded ms), w)
    end
  else if sel =? SEL_SUBMIT then
    match chosen_submit w with
    | SubmitAbsent => (Raise (timeout_exceeded ms), w)
    | _ => (Ret tt, w)
    end
  else (Raise (timeout_exceeded ms), w).

(** [page.get_attribute] waits for the element and times out without it. *)
Definition get_attribute (sel name : string) (w : World)
  : result (option string) * World :=
  match (if sel =? SEL_CONTINUE then w_now w else None) with
  | Some v =>
      match v_continue v with
      | Some href => (Ret (if name =? "href" then Some href else None), w)
      | None => (Raise (timeout_exceeded 30000), w)
      end
  | None => (Raise (timeout_exceeded 30000), w)
  end.

Definition query_selector (sel : string) (w : World)
  : result (option Element) * World :=
  if sel =? SEL_BUSY then
    match chosen_busy w with
    | IndicatorAbsent => (Ret None, w)
    | _ => (Ret (Some BusyIndicator), w)
    end
  else if sel =? SEL_DATE then
    (Ret (if chosen_date_input w then Some DateInput else None), w)
  else if sel =? SEL_TIME then (Ret (Some TimeDropdown), w)
  else if sel =? SEL_SUBMIT then
    match chosen_submit w with
    | SubmitAbsent => (Ret None, w)
    | _ => (Ret (Some SubmitButton), w)
    end
  else (Ret None, w).

Definition query_selector_all (sel : string) (w : World)
  : result (list Element) * World :=
  match (if sel =? SEL_FACILITY_OPTIONS then w_now w else None) with
  | Some v => (Ret (map FacilityOption (v_facilities v)), w)
  | None => (Ret [], w)
  end.

(** Selecting by value takes the first option with that value. *)
Definition select_facility (sel : string) (value : option string) (w : World)
  : result unit * World :=
  let found :=
    match w_now w, value with
    | Some v, Some x =>
        if sel =? SEL_FACILITY
        then find (fun f => fac_value f =? x) (v_facilities v)
        else None
    | _, _ => None
    end in
  match found with
  | Some f =>
      (Ret tt,
       {| w_future := w_future w; w_now := w_now w; w_chosen := Some f;
          w_launched := w_launched w; w_open := w_open w |})
  | None => (Raise (timeout_exceeded 30000), w)
  end.

Definition inner_text (e : Element) (w : World) : result string * World :=
  match e with
  | FacilityOption f => (Ret (fac_label f), w)
  | _ => (Ret "", w)
  end.

Definition elem_attribute (e : Element) (name : string) (w : World)
  : result (option string) * World :=
  if name =? "value" then
    match e with
    | FacilityOption f => (Ret (Some (fac_value f)), w)
    | TimeOption v => (Ret v, w)
    | DateInput =>
        (Ret match w_chosen w with Some f => fac_date f | None => None end, w)
    | _ => (Ret None, w)
    end
  else (Ret None, w).

Definition is_visible (e : Element) (w : World) : result bool * World :=
  match e, chosen_busy w with
  | BusyIndicator, IndicatorVisible => (Ret true, w)
  | BusyIndicator, _ => (Ret false, w)
  | _, _ => (Ret true, w)
  end.

Definition is_disabled (e : Element) (w : World) : result bool * World :=
  match e, chosen_submit w with
  | SubmitButton, SubmitDisabled => (Ret true, w)
  | _, _ => (Ret false, w)
  end.

(** The [option] elements under the time control that the selector
    [option[value]:not([value=''])] matches: those that carry a [value]
    attribute which is not the empty string, in document order. *)
Definition matching_time_options (times : list (option string))
  : list (option string) :=
  filter truthy times.

Definition elem_query_all (e : Element) (sel : string) (w : World)
  : result (list Element) * World :=
  match e, w_chosen w with
  | TimeDropdown, Some f =>
      if sel =? SEL_TIME_OPTIONS
      then (Ret (map TimeOption (matching_time_options (fac_times f))), w)
      else (Ret (map TimeOption (fac_times f)), w)
  | _, _ => (Ret [], w)
  end.

#[export] Instance driver : Driver := {|
  dstate := World;
  playwright := unit;
  browser := nat;
  context := nat;
  page := nat;
  elem := Element;
  sync_playwright_enter := fun w => (Ret tt, w);
  sync_playwright_exit := fun _ w => (Ret tt, w);
  chromium_launch := fun _ _ => launch;
  browser_new_context := fun b w => (Ret b, w);
  context_new_page := fun c w => (Ret c, w);
  context_close := fun _ w => (Ret tt, w);
  browser_close := close_browser;
  page_goto := fun _ _ w => (Ret tt, w);
  page_fill := fun _ _ _ w => (Ret tt, w);
  page_evaluate := fun _ _ w => (Ret tt, w);
  page_click := fun _ => click;
  page_wait_for_selector := fun _ => wait_for_selector;
  page_wait_for_load_state := fun _ _ w => (Ret tt, w);
  page_get_attribute := fun _ => get_attribute;
  page_query_selector := fun _ => query_selector;
  page_query_selector_all := fun _ => query_selector_all;
  page_select_option := fun _ => select_facility;
  page_on := fun _ _ _ w => (Ret tt, w);
  elem_inner_text := inner_text;
  elem_get_attribute := elem_attribute;
  elem_is_visible := is_visible;
  elem_is_disabled := is_disabled;
  elem_query_selector_all := elem_query_all;
  elem_select_option := fun _ _ w => (Ret tt, w);
  elem_click := fun _ w => (Ret tt, w)
|}.

(** The script is started on a site with the given visits ahead. *)
Definition start (visits : list (option Visit)) : @state driver :=
  {| drv := {| w_future := visits; w_now := None; w_chosen := None;
               w_launched := 0; w_open := [] |};
     vars := no_locals |}.

(** The scheduling page of visit [v], reached by browser session [0], with
    no facility chosen yet. *)
Definition on_form (v : Visit) : @state driver :=
  {| drv := {| w_future := []; w_now := Some v; w_chosen := None;
               w_launched := 1; w_open := [0] |};
     vars := {| l_browser := Some 0; l_context := Some 0;
                l_page := Some 0 |} |}.

(** The same page once facility [f] has been chosen. *)
Definition on_facility (v : Visit) (f : Facility) : @state driver :=
  {| drv := {| w_future := []; w_now := Some v; w_chosen := Some f;
               w_launched := 1; w_open := [0] |};
     vars := {| l_browser := Some 0; l_context := Some 0;
                l_page := Some 0 |} |}.

End Site.

(** ** Reading a run *)

Section Observations.

Context {D : Driver}.

(** The facility options a run has started to process, in order: each turn
    of the sweep begins by reading the option's text. *)
Definition visited (t : list event) : list elem :=
  flat_map (fun ev => match ev with EvInnerText o => [o] | _ => [] end) t.

(** The events that acquire or release a browser session. *)
Definition session_event (ev : event) : bool :=
  match ev with
  | EvEnter | EvExit _ | EvLaunch _ _ | EvNewContext _ | EvNewPage _
  | EvContextClose _ | EvBrowserClose _ => true
  | _ => false
  end.

(** The pause between two cycles. *)
Definition retry_sleep (ev : event) : bool :=
  match ev with
  | EvSleep n => (n =? RETRY_INTERVAL)%nat
  | _ => false
  end.

(** What happens on the page inside a cycle: anything but session events
    and the pause between cycles. *)
Definition page_event (ev : event) : bool :=
  negb (session_event ev) && negb (retry_sleep ev).

(** The events of the scanner: queries on the page and its elements and
    log records. *)
Definition scanner_event (ev : event) : bool :=
  match ev with
  | EvQuerySelector _ _ | EvClick _ _ | EvIsVisible _
  | EvElemGetAttribute _ _ | EvElemQuerySelectorAll _ _
  | EvElemSelectOption _ _ | EvLog _ _ => true
  | _ => false
  end.

(** Interactions with the date control or the time control. *)
Definition date_time_event (ev : event) : bool :=
  match ev with
  | EvClick _ sel | EvQuerySelector _ sel => (sel =? SEL_DATE) || (sel =? SEL_TIME)
  | EvElemGetAttribute _ _ | EvElemQuerySelectorAll _ _
  | EvElemSelectOption _ _ => true
  | _ => false
  end.

(** The values a run has chosen in a selection control of the page, in
    order. *)
Definition selected_times (t : list event) : list (option string) :=
  flat_map (fun ev => match ev with
                      | EvElemSelectOption _ v => [v]
                      | _ => []
                      end) t.

(** The submit controls a run has clicked, in order. *)
Definition clicked (t : list event) : list elem :=
  flat_map (fun ev => match ev with EvElemClick b => [b] | _ => [] end) t.

(** Every event but the one that marks a visit, every event but the one
    that marks a booking, and every event but these two. *)
Definition not_inner_text (ev : event) : bool :=
  match ev with EvInnerText _ => false | _ => true end.

Definition not_elem_click (ev : event) : bool :=
  match ev with EvElemClick _ => false | _ => true end.

Definition quiet_event (ev : event) : bool :=
  not_inner_text ev && not_elem_click ev.

(** The answer of [page.get_attribute] on the continue link is a string
    in which the pattern of line 53 is found. *)
Definition href_parses (r : result (option string)) : bool :=
  match r with
  | Ret (Some href) =>
      match Re.search href with Some _ => true | None => false end
  | _ => false
  end.

(** The number of pauses between cycles in a run. *)
Definition retry_sleeps (t : list event) : nat :=
  List.length (filter retry_sleep t).

(** A computation is [safe P] when it leaves the local variables of
    [login_and_schedule] alone and performs only events in [P]. *)
Definition safe (P : event -> bool) {A} (m : M A) : Prop :=
  forall s r s' t,
    m s = (r, s', t) -> vars s' = vars s /\ forallb P t = true.

Variables username password : string.

(** The state a cycle leaves behind, and the events of the first [n]
    cycles run one after the other. *)
Definition after_cycle (p : playwright) (s : state) : state :=
  snd (fst (cycle username password p s)).

Fixpoint state_after (n : nat) (p : playwright) (s : state) : state :=
  match n with
  | O => s
  | S n' => state_after n' p (after_cycle p s)
  end.

Fixpoint cycles_events (n : nat) (p : playwright) (s : state) : list event :=
  match n with
  | O => []
  | S n' =>
      (snd (cycle username password p s)
       ++ cycles_events n' p (after_cycle p s))%list
  end.

(** A cycle books when its [try] suite reaches the [break] of line 136. *)
Definition books (p : playwright) (s : state) : bool :=
  match try_suite username password p s with
  | (Ret Break, _, _) => true
  | _ => false
  end.

End Observations.

(** ** Sample sites *)

Module Samples.
Import Site.

(** The "no availability" notice is shown. *)
Definition calgary : Facility :=
  {| fac_label := "Calgary"; fac_value := "89"; fac_submit := SubmitEnabled;
     fac_busy := IndicatorVisible; fac_date_input := true;
     fac_date := None; fac_times := [] |}.

(** A date and three time options, the first without a value. *)
Definition ottawa : Facility :=
  {| fac_label := "Ottawa"; fac_value := "92"; fac_submit := SubmitEnabled;
     fac_busy := IndicatorAbsent; fac_date_input := true;
     fac_date := Some "2024-05-01";
     fac_times := [Some ""; Some "09:00"; Some "10:30"] |}.

Definition toronto : Facility :=
  {| fac_label := "Toronto"; fac_value := "94"; fac_submit := SubmitEnabled;
     fac_busy := IndicatorAbsent; fac_date_input := true;
     fac_date := Some "2024-06-01"; fac_times := [Some "11:00"] |}.

(** Two time options, the later one first. *)
Definition winnipeg : Facility :=
  {| fac_label := "Winnipeg"; fac_value := "96"; fac_submit := SubmitEnabled;
     fac_busy := IndicatorHidden; fac_date_input := true;
     fac_date := Some "2024-07-15";
     fac_times := [None; Some "10:30"; Some "09:00"] |}.

(** No submit control at all. *)
Definition halifax : Facility :=
  {| fac_label := "Halifax"; fac_value := "90"; fac_submit := SubmitAbsent;
     fac_busy := IndicatorAbsent; fac_date_input := true;
     fac_date := None; fac_times := [] |}.

(** The date input is missing from the form. *)
Definition vancouver : Facility :=
  {| fac_label := "Vancouver"; fac_value := "95"; fac_submit := SubmitEnabled;
     fac_busy := IndicatorHidden; fac_date_input := false;
     fac_date := None; fac_times := [] |}.

Definition good_href : string := "/en-ca/niv/schedule/12345/continue_actions".

Definition bad_href : string := "/en-ca/niv/groups/12345".

Definition three_facilities : Visit :=
  {| v_signed_in := true; v_continue := Some good_href;
     v_facilities := [calgary; ottawa; toronto] |}.

Definition halifax_first : Visit :=
  {| v_signed_in := true; v_continue := Some good_href;
     v_facilities := [halifax; ottawa] |}.

Definition vancouver_first : Visit :=
  {| v_signed_in := true; v_continue := Some good_href;
     v_facilities := [vancouver; ottawa] |}.

Definition nothing_free : Visit :=
  {| v_signed_in := true; v_continue := Some good_href;
     v_facilities := [calgary] |}.

Definition sign_in_stalls : Visit :=
  {| v_signed_in := false; v_continue := Some good_href;
     v_facilities := [ottawa] |}.

Definition unparsable_link : Visit :=
  {| v_signed_in := true; v_continue := Some bad_href;
     v_facilities := [ottawa] |}.

Definition ottawa_only : Visit :=
  {| v_signed_in := true; v_continue := Some good_href;
     v_facilities := [ottawa] |}.

(** The credentials of the sample runs. *)
Definition user : string := "applicant@example.org".
Definition secret : string := "s3cret".

(** A run that books in its first cycle. *)
Definition lucky : @state driver := start [Some three_facilities].

(** A run whose first cycle finds nothing and whose second launch fails. *)
Definition unlucky : @state driver := start [Some nothing_free; None].

(** A run whose first cycle stops at the continue link. *)
Definition lost : @state driver :=
  start [Some unparsable_link; Some three_facilities].

(** Three failures of three kinds, then a booking. *)
Definition stubborn : @state driver :=
  start [Some sign_in_stalls; Some unparsable_link; Some nothing_free;
         Some three_facilities].

End Samples.

(** ** The configuration read when the script is loaded (lines 12-16) *)

Module Config.

#[local] Set Warnings "-register-all".

(** What [json.load] can give. *)
Inductive json : Type :=
| JNull
| JBool (b : bool)
| JNumber (text : string)
| JString (s : string)
| JArray (items : list json)
| JObject (members : list (string * json)).

(** How the five lines can fail: [open] raises an [OSError] (no such file,
    no permission), [json.load] rejects the text, and a subscript raises
    [KeyError] on a dict without the key and [TypeError] on a value that
    is not a dict. *)
Inductive error : Type :=
| OSError (path : string)
| DecodeError (msg : string)
| KeyError (key : string)
| TypeError (key : string).

Definition DEFAULT_PATH : string := "C:\Users\Anurag\Downloads\config.json".

(** [os.environ], as the pairs it holds. *)
Definition environ : Type := list (string * string).

(** [d.get(key)] on the items of a dict. *)
Fixpoint lookup {V : Type} (key : string) (items : list (string * V))
  : option V :=
  match items with
  | [] => None
  | (k, v) :: rest => if k =? key then Some v else lookup key rest
  end.

(** [os.getenv(key, default)]. *)
Definition getenv (env : environ) (key default : string) : string :=
  match lookup key env with
  | Some v => v
  | None => default
  end.

(** [config[key]]. *)
Definition subscript (config : json) (key : string) : error + json :=
  match config with
  | JObject members =>
      match lookup key members with
      | Some v => inr v
      | None => inl (KeyError key)
      end
  | _ => inl (TypeError key)
  end.

Section Load.

(** [json.load] on the text of a file: the decoder is not part of the
    script. *)
Variable json_load : string -> string + json.

(** The files that [open] can read, with their text. *)
Variable files : string -> option string.

(** Lines 12-16: the pair ([username], [password]). *)
Definition load (env : environ) : error + (json * json) :=
  let config_path := getenv env "CONFIG_PATH" DEFAULT_PATH in
  match files config_path with
  | None => inl (OSError config_path)
  | Some text =>
      match json_load text with
      | inl msg => inl (DecodeError msg)
      | inr config =>
          match subscript config "username" with
          | inl e => inl e
          | inr username =>
              match subscript config "password" with
              | inl e => inl e
              | inr password => inr (username, password)
              end
          end
      end
  end.

End Load.

End Config.

(** ** More readings of a run *)

(** The ten ASCII digits. *)
Definition ascii_digit (c : ascii) : bool :=
  let n := nat_of_ascii c in ((48 <=? n) && (n <=? 57))%nat.

(** Every character of [s] is one of [0-9]. *)
Fixpoint all_digits (s : string) : bool :=
  match s with
  | EmptyString => true
  | String c s' => ascii_digit c && all_digits s'
  end.

(** [s] is the text of a string of decimal digits: every character of it
    is of the category Nd. *)
Inductive decimal_digits : string -> Prop :=
| decimal_digits_nil : decimal_digits EmptyString
| decimal_digits_cons (c : N) (s : string) :
    Re.is_decimal c = true -> decimal_digits s ->
    decimal_digits (Re.utf8 c ++ s).

Section Readings.

Context {D : Driver}.

Variables username password : string.

(** The calls of [login] when nothing fails (lines 34-41). *)
Definition login_script (pg : page) : list event :=
  [EvGoto pg SIGN_IN_URL;
   EvLog INFO "Opened login page.";
   EvFill pg SEL_EMAIL username;
   EvFill pg SEL_PASSWORD password;
   EvEvaluate pg JS_POLICY;
   EvClick pg SEL_COMMIT;
   EvWaitForSelector pg SEL_LOGGED_IN PAGE_TIMEOUT;
   EvLog INFO "Successfully logged in."].

(** The text logged by the [except] clause that catches [e] in [login]. *)
Definition login_error_message (e : exn) : string :=
  if is_TimeoutError e then "Login page did not load in time."
  else "Error during login: " ++ exn_str e.

(** The calls of [navigate_to_appointment] when nothing fails, for the
    appointment number [g]. *)
Definition navigate_script (pg : page) (g : string) : list event :=
  [EvGetAttribute pg SEL_CONTINUE "href";
   EvGoto pg (appointment_url g);
   EvWaitForLoadState pg "load";
   EvLog INFO "Navigated to the appointment scheduling page."].

(** The number of browser launches in a run. *)
Definition launches (t : list event) : nat :=
  List.length
    (filter (fun ev => match ev with EvLaunch _ _ => true | _ => false end) t).

(** The pauses after a facility without a slot. *)
Definition select_pause (ev : event) : bool :=
  match ev with
  | EvSleep n => (n =? SLEEP_AFTER_SELECT)%nat
  | _ => false
  end.

Definition select_pauses (t : list event) : nat :=
  List.length (filter select_pause t).

(** The calls that touch the time control or its options. *)
Definition time_control_event (ev : event) : bool :=
  match ev with
  | EvQuerySelector _ sel => sel =? SEL_TIME
  | EvElemQuerySelectorAll _ _ | EvElemSelectOption _ _ => true
  | _ => false
  end.

(** The end of a sweep that books (lines 82-83 and 110-112): the time is
    selected, the dialog handler registered and the submit control
    clicked. *)
Definition booking_tail (pg : page) (td : elem) (v : option string)
  (button : elem) (name : string) : list event :=
  [EvElemSelectOption td v;
   EvLog INFO ("Selected available time: " ++ str_opt v);
   EvOn pg "dialog" handle_confirm;
   EvElemClick button;
   EvLog INFO ("Rescheduled successfully at location: " ++ name ++ ".")].

(** The end of a turn of the sweep that does not book (lines 115-116). *)
Definition no_slot_tail (name : string) : list event :=
  [EvLog INFO ("No available appointments at " ++ name ++ ".");
   EvSleep SLEEP_AFTER_SELECT].

(** The [close] calls of a run, in order. *)
Definition closes (t : list event) : list event :=
  filter (fun ev => match ev with
                    | EvContextClose _ | EvBrowserClose _ => true
                    | _ => false
                    end) t.

(** The sessions a run has closed: the contexts and the browsers. *)
Definition close_calls (t : list event) : nat :=
  List.length
    (filter (fun ev => match ev with
                       | EvContextClose _ | EvBrowserClose _ => true
                       | _ => false
                       end) t).

End Readings.

(** More sample sites. *)
Module MoreSamples.
Import Site Samples.

(** The submit control is there, but disabled. *)
Definition regina : Facility :=
  {| fac_label := "Regina"; fac_value := "97"; fac_submit := SubmitDisabled;
     fac_busy := IndicatorAbsent; fac_date_input := true;
     fac_date := Some "2024-08-01"; fac_times := [Some "08:15"] |}.

Definition regina_first : Visit :=
  {| v_signed_in := true; v_continue := Some good_href;
     v_facilities := [regina; calgary] |}.

(** The continue link holds its number in Arabic-Indic digits. *)
Definition arabic_href : string :=
  "/en-ca/niv/schedule/" ++ Re.text [1633; 1634; 1635]%N
  ++ "/continue_actions".

Definition arabic_site : Visit :=
  {| v_signed_in := true; v_continue := Some arabic_href;
     v_facilities := [calgary] |}.

(** A run whose first sign-in stalls. *)
Definition slow : @state driver :=
  start [Some sign_in_stalls; Some three_facilities].

End MoreSamples.

(** Browsers like the scripted site, except that closing a context fails;
    with [contexts = false] no context can be made either. *)
Module Crashing.
Import Site.

Definition close_context (c : nat) (w : World) : result unit * World :=
  (Raise (PlaywrightError "Target page, context or browser has been closed"),
   w).

Definition new_context (contexts : bool) (b : nat) (w : World)
  : result nat * World :=
  if contexts then (Ret b, w)
  else (Raise (PlaywrightError "Browser closed unexpectedly"), w).

Definition driver (contexts : bool) : Driver := {|
  dstate := World;
  playwright := unit;
  browser := nat;
  context := nat;
  page := nat;
  elem := Element;
  sync_playwright_enter := fun w => (Ret tt, w);
  sync_playwright_exit := fun _ w => (Ret tt, w);
  chromium_launch := fun _ _ => launch;
  browser_new_context := new_context contexts;
  context_new_page := fun c w => (Ret c, w);
  context_close := close_context;
  browser_close := close_browser;
  page_goto := fun _ _ w => (Ret tt, w);
  page_fill := fun _ _ _ w => (Ret tt, w);
  page_evaluate := fun _ _ w => (Ret tt, w);
  page_click := fun _ => click;
  page_wait_for_selector := fun _ => wait_for_selector;
  page_wait_for_load_state := fun _ _ w => (Ret tt, w);
  page_get_attribute := fun _ => get_attribute;
  page_query_selector := fun _ => query_selector;
  page_query_selector_all := fun _ => query_selector_all;
  page_select_option := fun _ => select_facility;
  page_on := fun _ _ _ w => (Ret tt, w);
  elem_inner_text := inner_text;
  elem_get_attribute := elem_attribute;
  elem_is_visible := is_visible;
  elem_is_disabled := is_disabled;
  elem_query_selector_all := elem_query_all;
  elem_select_option := fun _ _ w => (Ret tt, w);
  elem_click := fun _ w => (Ret tt, w)
|}.

(** The script started on this browser, with the given visits ahead. *)
Definition start (contexts : bool) (visits : list (option Visit))
  : @state (driver contexts) :=
  @mkState (driver contexts)
    {| w_future := visits; w_now := None; w_chosen := None;
       w_launched := 0; w_open := [] |}
    (@no_locals (driver contexts)).

End Crashing.

(** A browser that gives one page only: [new_page] answers in the first
    context and fails in every later one. *)
Module Flaky.
Import Site.

Definition new_page (c : nat) (w : World) : result nat * World :=
  if (c =? 0)%nat then (Ret c, w)
  else (Raise (PlaywrightError
                 "Target page, context or browser has been closed"), w).

Definition driver : Driver := {|
  dstate := World;
  playwright := unit;
  browser := nat;
  context := nat;
  page := nat;
  elem := Element;
  sync_playwright_enter := fun w => (Ret tt, w);
  sync_playwright_exit := fun _ w => (Ret tt, w);
  chromium_launch := fun _ _ => launch;
  browser_new_context := fun b w => (Ret b, w);
  context_new_page := new_page;
  context_close := fun _ w => (Ret tt, w);
  browser_close := close_browser;
  page_goto := fun _ _ w => (Ret tt, w);
  page_fill := fun _ _ _ w => (Ret tt, w);
  page_evaluate := fun _ _ w => (Ret tt, w);
  page_click := fun _ => click;
  page_wait_for_selector := fun _ => wait_for_selector;
  page_wait_for_load_state := fun _ _ w => (Ret tt, w);
  page_get_attribute := fun _ => get_attribute;
  page_query_selector := fun _ => query_selector;
  page_query_selector_all := fun _ => query_selector_all;
  page_select_option := fun _ => select_facility;
  page_on := fun _ _ _ w => (Ret tt, w);
  elem_inner_text := inner_text;
  elem_get_attribute := elem_attribute;
  elem_is_visible := is_visible;
  elem_is_disabled := is_disabled;
  elem_query_selector_all := elem_query_all;
  elem_select_option := fun _ _ w => (Ret tt, w);
  elem_click := fun _ w => (Ret tt, w)
|}.

(** The script started on this browser, with the given visits ahead. *)
Definition start (visits : list (option Visit)) : @state driver :=
  @mkState driver
    {| w_future := visits; w_now := None; w_chosen := None;
       w_launched := 0; w_open := [] |}
    (@no_locals driver).

End Flaky.

(** * Properties *)

Section Laws.

Context {D : Driver}.

Lemma prefix_events_inv {A} (t1 : list event)
  (x : result A * state * list event) r s t :
  prefix_events t1 x = (r, s, t) ->
  exists t2, x = (r, s, t2) /\ t = (t1 ++ t2)%list.
Proof.
  destruct x as [[r0 s0] t0]. simpl. intros H. inversion H; subst.
  exists t0. split; reflexivity.
Qed.

Lemma bind_Ret {A B} (m : M A) (k : A -> M B) s a s1 t1 :
  m s = (Ret a, s1, t1) -> bind m k s = prefix_events t1 (k a s1).
Proof. intros H. unfold bind. rewrite H. reflexivity. Qed.

Lemma bind_Raise {A B} (m : M A) (k : A -> M B) s e s1 t1 :
  m s = (Raise e, s1, t1) -> bind m k s = (Raise e, s1, t1).
Proof. intros H. unfold bind. rewrite H. reflexivity. Qed.

Lemma bind_inv {A B} (m : M A) (k : A -> M B) s r s' t :
  bind m k s = (r, s', t) ->
  (exists a s1 t1 t2,
      m s = (Ret a, s1, t1) /\ k a s1 = (r, s', t2) /\ t = (t1 ++ t2)%list)
  \/ (exists e, m s = (Raise e, s', t) /\ r = Raise e).
Proof.
  unfold bind. destruct (m s) as [[[a | e] s1] t1]; intros H.
  - apply prefix_events_inv in H. destruct H as (t2 & H1 & H2).
    left. exists a, s1, t1, t2. auto.
  - inversion H; subst. right. exists e. auto.
Qed.

Lemma try_except_Ret {A} (body : M A) h s a s1 t1 :
  body s = (Ret a, s1, t1) -> try_except body h s = (Ret a, s1, t1).
Proof. intros H. unfold try_except. rewrite H. reflexivity. Qed.

Lemma try_except_Raise {A} (body : M A) h s e s1 t1 :
  body s = (Raise e, s1, t1) ->
  try_except body h s = prefix_events t1 (h e s1).
Proof. intros H. unfold try_except. rewrite H. reflexivity. Qed.

Lemma call_run {A} (ev : event) (op : dstate -> result A * dstate) s r d :
  op (drv s) = (r, d) ->
  call ev op s = (r, {| drv := d; vars := vars s |}, [ev]).
Proof. intros H. unfold call. rewrite H. reflexivity. Qed.

Lemma safe_ret P {A} (a : A) : safe P (ret a).
Proof. intros s r s' t H. inversion H; subst. auto. Qed.

Lemma safe_raise P {A} e : safe P (@raise D A e).
Proof. intros s r s' t H. inversion H; subst. auto. Qed.

Lemma safe_call P {A} ev (op : dstate -> result A * dstate) :
  P ev = true -> safe P (call ev op).
Proof.
  intros HP s r s' t H. unfold call in H.
  destruct (op (drv s)) as [r0 d]. inversion H; subst. simpl.
  rewrite HP. auto.
Qed.

Lemma safe_log P lvl msg : P (EvLog lvl msg) = true -> safe P (log lvl msg).
Proof.
  intros HP s r s' t H. inversion H; subst. simpl. rewrite HP. auto.
Qed.

Lemma safe_sleep P n : P (EvSleep n) = true -> safe P (sleep n).
Proof.
  intros HP s r s' t H. inversion H; subst. simpl. rewrite HP. auto.
Qed.

Lemma safe_bind P {A B} (m : M A) (k : A -> M B) :
  safe P m -> (forall a, safe P (k a)) -> safe P (bind m k).
Proof.
  intros Hm Hk s r s' t H. apply bind_inv in H.
  destruct H as [(a & s1 & t1 & t2 & H1 & H2 & ->) | (e & H1 & ->)].
  - apply Hm in H1. apply Hk in H2. destruct H1, H2.
    split; [congruence |]. rewrite forallb_app. apply andb_true_iff. auto.
  - apply Hm in H1. exact H1.
Qed.

Lemma safe_try_except P {A} (body : M A) h :
  safe P body -> (forall e, safe P (h e)) -> safe P (try_except body h).
Proof.
  intros Hb Hh s r s' t H. unfold try_except in H.
  destruct (body s) as [[[a | e] s1] t1] eqn:E.
  - inversion H; subst. apply Hb in E. exact E.
  - apply prefix_events_inv in H. destruct H as (t2 & H2 & ->).
    apply Hb in E. apply Hh in H2. destruct E, H2.
    split; [congruence |]. rewrite forallb_app. apply andb_true_iff. auto.
Qed.

Lemma safe_deref P {A} (o : option A) attr : safe P (deref o attr).
Proof. destruct o; [apply safe_ret | apply safe_raise]. Qed.

Lemma safe_for_each P {X R} (body : X -> M (option R)) xs :
  (forall x, safe P (body x)) -> safe P (for_each body xs).
Proof.
  intros Hb. induction xs as [| x rest IH]; simpl.
  - apply safe_ret.
  - apply safe_bind; [apply Hb |]. intros [v |]; [apply safe_ret | exact IH].
Qed.

Lemma safe_weaken (P Q : event -> bool) {A} (m : M A) :
  (forall ev, P ev = true -> Q ev = true) -> safe P m -> safe Q m.
Proof.
  intros HPQ Hm s r s' t H. apply Hm in H. destruct H as [Hv Ht].
  split; [exact Hv |]. rewrite forallb_forall in *. auto.
Qed.

End Laws.

Ltac safe_step :=
  first
    [ apply safe_bind; [| intros ? ]
    | apply safe_try_except; [| intros ? ]
    | apply safe_call; reflexivity
    | apply safe_log; reflexivity
    | apply safe_sleep; reflexivity
    | apply safe_ret
    | apply safe_raise
    | apply safe_deref
    | match goal with
      | |- safe _ (match ?x with _ => _ end) => destruct x
      | |- safe _ (if ?x then _ else _) => destruct x
      end ].

Ltac safe_auto := repeat safe_step.

(** ** The scanner: [select_date_and_time] *)

Section Scanner.

Context {D : Driver}.

Lemma select_date_and_time_body_events (pg : page) :
  safe scanner_event (select_date_and_time_body pg).
Proof. unfold select_date_and_time_body. safe_auto. Qed.

Lemma select_date_and_time_events (pg : page) :
  safe scanner_event (select_date_and_time pg).
Proof.
  unfold select_date_and_time. apply safe_try_except.
  - apply select_date_and_time_body_events.
  - intros e. safe_auto.
Qed.

(** C6.  When the "no availability" element is found and reports itself
    visible, [select_date_and_time] answers [False] after exactly three
    events: the query for the element, the visibility test and the warning.
    None of them touches the date control or the time control. *)
Theorem busy_indicator_short_circuit
  (pg : page) (s : state) (el : elem) (d1 d2 : dstate) :
  page_query_selector pg SEL_BUSY (drv s) = (Ret (Some el), d1) ->
  elem_is_visible el d1 = (Ret true, d2) ->
  select_date_and_time pg s =
    (Ret false, {| drv := d2; vars := vars s |},
     [EvQuerySelector pg SEL_BUSY; EvIsVisible el;
      EvLog WARNING "System is busy. No date or time available."])
  /\ forallb (fun ev => negb (date_time_event ev))
       (snd (select_date_and_time pg s)) = true.
Proof.
  intros Hq Hv.
  assert (E : select_date_and_time pg s =
    (Ret false, {| drv := d2; vars := vars s |},
     [EvQuerySelector pg SEL_BUSY; EvIsVisible el;
      EvLog WARNING "System is busy. No date or time available."])).
  { unfold select_date_and_time, try_except, select_date_and_time_body.
    unfold bind at 1. rewrite (call_run _ _ _ _ _ Hq). simpl.
    unfold bind at 1. unfold call at 1. simpl. rewrite Hv. simpl.
    reflexivity. }
  split; [exact E |]. rewrite E. reflexivity.
Qed.

(** C8.  [select_date_and_time] answers with a boolean in every state of
    every browser: no exception leaves it.  Whenever a step of its [try]
    suite raises, the answer is [False], and the run ends with the log
    record of the [except] clause. *)
Theorem select_date_and_time_never_raises (pg : page) (s : state) :
  (exists b s' t, select_date_and_time pg s = (Ret b, s', t))
  /\ (forall e s1 t1,
        select_date_and_time_body pg s = (Raise e, s1, t1) ->
        select_date_and_time pg s =
          (Ret false, s1,
           (t1 ++ [EvLog ERROR ("Error selecting date and time: "
                                ++ exn_str e)])%list)).
Proof.
  unfold select_date_and_time, try_except.
  destruct (select_date_and_time_body pg s) as [[[b | e] s1] t1].
  - split; [exists b, s1, t1; reflexivity | intros e s2 t2 H; discriminate].
  - split.
    + eexists _, _, _. reflexivity.
    + intros e' s2 t2 H. inversion H; subst. reflexivity.
Qed.

End Scanner.

(** ** The sweep: [check_and_reschedule] *)

Section Sweep.

Context {D : Driver}.

Lemma visited_app (a b : list event) :
  visited (a ++ b) = (visited a ++ visited b)%list.
Proof. apply flat_map_app. Qed.

Lemma clicked_app (a b : list event) :
  clicked (a ++ b) = (clicked a ++ clicked b)%list.
Proof. apply flat_map_app. Qed.

Lemma visited_nil (t : list event) :
  forallb not_inner_text t = true -> visited t = [].
Proof.
  induction t as [| ev t IH]; simpl; [reflexivity |].
  intros H. apply andb_true_iff in H. destruct H as [H1 H2].
  rewrite (IH H2). destruct ev; try reflexivity; discriminate.
Qed.

Lemma clicked_nil (t : list event) :
  forallb not_elem_click t = true -> clicked t = [].
Proof.
  induction t as [| ev t IH]; simpl; [reflexivity |].
  intros H. apply andb_true_iff in H. destruct H as [H1 H2].
  rewrite (IH H2). destruct ev; try reflexivity; discriminate.
Qed.

Lemma quiet_split (t : list event) :
  forallb quiet_event t = true ->
  forallb not_inner_text t = true /\ forallb not_elem_click t = true.
Proof.
  rewrite !forallb_forall. intros H. split; intros ev Hin;
    apply H in Hin; apply andb_true_iff in Hin; tauto.
Qed.

Lemma scanner_quiet (pg : page) : safe quiet_event (select_date_and_time pg).
Proof.
  apply (safe_weaken scanner_event); [| apply select_date_and_time_events].
  intros ev. destruct ev; simpl; intros H; try reflexivity; discriminate.
Qed.

Lemma scanner_events_quiet (pg : page) s r s' t :
  select_date_and_time pg s = (r, s', t) -> forallb quiet_event t = true.
Proof. intros H. apply scanner_quiet in H. apply H. Qed.

Lemma call_inv {A} (ev : event) (op : dstate -> result A * dstate) s r s' t :
  call ev op s = (r, s', t) ->
  t = [ev] /\ vars s' = vars s /\ op (drv s) = (r, drv s').
Proof.
  unfold call. destruct (op (drv s)) as [r0 d]. intros H.
  inversion H; subst. auto.
Qed.

(** What [approach] performs: the option's text is read first, and nothing
    after that reads an option's text or clicks a submit control. *)
Lemma approach_events (pg : page) (o : elem) s r s' t :
  approach pg o s = (r, s', t) ->
  exists t', t = EvInnerText o :: t' /\ forallb quiet_event t' = true.
Proof.
  unfold approach. intros H. apply bind_inv in H.
  destruct H as [(a & s1 & t1 & t2 & H1 & H2 & ->) | (e & H1 & ->)].
  - apply call_inv in H1. destruct H1 as (-> & _).
    exists t2. split; [reflexivity |].
    revert H2. generalize s1 r s' t2.
    match goal with
    | |- forall s r s' t, ?m s = _ -> _ => cut (safe quiet_event m)
    end.
    + intros Hs s0 r0 s0' t0 E. apply Hs in E. apply E.
    + safe_auto.
  - apply call_inv in H1. destruct H1 as (-> & _). exists []. auto.
Qed.

Lemma approach_visited (pg : page) (o : elem) s r s' t :
  approach pg o s = (r, s', t) -> visited t = [o] /\ clicked t = [].
Proof.
  intros H. apply approach_events in H. destruct H as (t' & -> & Hq).
  apply quiet_split in Hq. destruct Hq as [Hv Hc]. simpl.
  rewrite (visited_nil _ Hv), (clicked_nil _ Hc). auto.
Qed.

Lemma log_inv lvl msg (s : state) (r : result unit) s' t :
  log lvl msg s = (r, s', t) -> r = Ret tt /\ s' = s /\ t = [EvLog lvl msg].
Proof. intros H. inversion H; subst. auto. Qed.

Lemma ret_inv {A} (a : A) (s : state) r s' t :
  ret a s = (r, s', t) -> r = Ret a /\ s' = s /\ t = [].
Proof. intros H. inversion H; subst. auto. Qed.

Lemma try_except_inv {A} (body : M A) h s r s' t :
  try_except body h s = (r, s', t) ->
  (exists a, body s = (Ret a, s', t) /\ r = Ret a)
  \/ (exists e s1 t1 t2,
        body s = (Raise e, s1, t1) /\ h e s1 = (r, s', t2)
        /\ t = (t1 ++ t2)%list).
Proof.
  unfold try_except. destruct (body s) as [[[a | e] s1] t1]; intros H.
  - inversion H; subst. left. eauto.
  - apply prefix_events_inv in H. destruct H as (t2 & H & ->).
    right. exists e, s1, t1, t2. auto.
Qed.

(** How lines 104-113 can end: with a click exactly when they book. *)
Lemma attempt_outcomes (pg : page) name button s r s' t :
  attempt pg name button s = (r, s', t) ->
  forallb not_inner_text t = true
  /\ match r with
     | Ret true =>
         exists t0 b,
           button = Some b
           /\ t = (t0 ++ [EvOn pg "dialog" handle_confirm; EvElemClick b;
                          EvLog INFO ("Rescheduled successfully at location: "
                                      ++ name ++ ".")])%list
           /\ clicked t = [b]
     | Ret false => clicked t = []
     | Raise _ => True
     end.
Proof.
  unfold attempt. destruct button as [b |].
  2:{ intros H. apply ret_inv in H. destruct H as (-> & _ & ->). auto. }
  intros H. apply bind_inv in H.
  destruct H as [(dis & s1 & t1 & t2 & H1 & H2 & ->) | (e & H1 & ->)].
  2:{ apply call_inv in H1. destruct H1 as (-> & _). auto. }
  apply call_inv in H1. destruct H1 as (-> & _).
  destruct dis.
  { apply ret_inv in H2. destruct H2 as (-> & _ & ->). auto. }
  apply bind_inv in H2.
  destruct H2 as [(found & s2 & t3 & t4 & H3 & H4 & ->) | (e & H3 & ->)].
  2:{ apply scanner_events_quiet in H3. apply quiet_split in H3.
      cbn [app forallb not_inner_text andb]. tauto. }
  apply scanner_events_quiet in H3. apply quiet_split in H3.
  destruct H3 as [Hv Hc].
  destruct found.
  2:{ apply ret_inv in H4. destruct H4 as (-> & _ & ->).
      rewrite app_nil_r. split.
      - cbn [app forallb not_inner_text andb]. exact Hv.
      - rewrite clicked_app, (clicked_nil _ Hc). reflexivity. }
  apply bind_inv in H4.
  destruct H4 as [(u1 & s3 & t5 & t6 & H5 & H6 & ->) | (e & H5 & ->)].
  2:{ apply call_inv in H5. destruct H5 as (-> & _).
      cbn [app forallb not_inner_text andb]. rewrite forallb_app, Hv. auto. }
  apply call_inv in H5. destruct H5 as (-> & _).
  apply bind_inv in H6.
  destruct H6 as [(u2 & s4 & t7 & t8 & H7 & H8 & ->) | (e & H7 & ->)].
  2:{ apply call_inv in H7. destruct H7 as (-> & _).
      cbn [app forallb not_inner_text andb]. rewrite forallb_app, Hv. auto. }
  apply call_inv in H7. destruct H7 as (-> & _).
  apply bind_inv in H8.
  destruct H8 as [(u3 & s5 & t9 & t10 & H9 & H10 & ->) | (e & H9 & ->)].
  2:{ apply log_inv in H9. destruct H9 as (H9 & _). discriminate H9. }
  apply log_inv in H9. destruct H9 as (_ & _ & ->).
  apply ret_inv in H10. destruct H10 as (-> & _ & ->).
  split.
  - cbn [app forallb not_inner_text andb]. rewrite forallb_app, Hv. auto.
  - exists ([EvIsDisabled b] ++ t3)%list, b. split; [reflexivity |]. split.
    + rewrite <- app_assoc. reflexivity.
    + cbn [app]. change (EvIsDisabled b :: (t3 ++ ?x))%list
        with ([EvIsDisabled b] ++ (t3 ++ x))%list.
      rewrite !clicked_app, (clicked_nil _ Hc). reflexivity.
Qed.

(** The ways a turn of the loop can end.  It visits its option and no
    other; it clicks at most once, and exactly when it books. *)
Lemma visit_outcomes (pg : page) (o : elem) s r s' t :
  visit pg o s = (r, s', t) ->
  visited t = [o]
  /\ match r with
     | Ret (Some b) =>
         b = true
         /\ exists t0 button name,
             t = (t0 ++ [EvOn pg "dialog" handle_confirm; EvElemClick button;
                         EvLog INFO ("Rescheduled successfully at location: "
                                     ++ name ++ ".")])%list
             /\ clicked t = [button]
     | Ret None => clicked t = []
     | Raise _ => True
     end.
Proof.
  unfold visit. intros H. apply bind_inv in H.
  destruct H as [(a & s1 & t1 & t2 & H1 & H2 & ->) | (e & H1 & ->)].
  2:{ apply approach_visited in H1. tauto. }
  apply approach_visited in H1. destruct H1 as [Hv1 Hc1].
  rewrite visited_app, clicked_app, Hv1, Hc1.
  destruct a as [name button].
  apply bind_inv in H2.
  destruct H2 as [(booked & s2 & t3 & t4 & H3 & H4 & ->) | (e & H3 & ->)].
  2:{ apply attempt_outcomes in H3. destruct H3 as [Hv _].
      rewrite (visited_nil _ Hv). auto. }
  apply attempt_outcomes in H3. destruct H3 as [Hv Hb].
  rewrite visited_app, clicked_app, (visited_nil _ Hv).
  destruct booked.
  - apply ret_inv in H4. destruct H4 as (-> & _ & ->).
    destruct Hb as (t0 & b & _ & -> & Hc).
    split; [reflexivity |]. split; [reflexivity |].
    exists (t1 ++ t0)%list, b, name. split.
    + rewrite app_nil_r, app_assoc. reflexivity.
    + rewrite Hc. reflexivity.
  - assert (E : r = Ret None /\ t4 = [EvLog INFO ("No available appointments at " ++ name ++ "."); EvSleep SLEEP_AFTER_SELECT]).
    { unfold bind, log, sleep, ret in H4. cbn [prefix_events app] in H4.
      inversion H4; subst. auto. }
    destruct E as [-> ->]. rewrite Hb. auto.
Qed.

(** The sweep visits a prefix of the options, in their order; when it
    books, the booking is at the last option visited and ends the run. *)
Lemma sweep_outcomes (pg : page) (options : list elem) :
  forall s r s' t,
    sweep pg options s = (r, s', t) ->
    (exists n, visited t = firstn n options)
    /\ match r with
       | Ret (Some b) =>
           b = true
           /\ exists before o after t0 button name,
               options = (before ++ o :: after)%list
               /\ visited t = (before ++ [o])%list
               /\ t = (t0 ++ [EvOn pg "dialog" handle_confirm;
                              EvElemClick button;
                              EvLog INFO
                                ("Rescheduled successfully at location: "
                                 ++ name ++ ".")])%list
               /\ clicked t = [button]
       | Ret None => visited t = options /\ clicked t = []
       | Raise _ => True
       end.
Proof.
  unfold sweep. induction options as [| o rest IH]; intros s r s' t H.
  - apply ret_inv in H. destruct H as (-> & _ & ->).
    split; [exists 0; reflexivity | auto].
  - cbn [for_each] in H. apply bind_inv in H.
    destruct H as [(a & s1 & t1 & t2 & H1 & H2 & ->) | (e & H1 & ->)].
    2:{ apply visit_outcomes in H1. destruct H1 as [Hv _].
        split; [exists 1; rewrite Hv; reflexivity | exact I]. }
    apply visit_outcomes in H1. destruct H1 as [Hv Hr].
    destruct a as [b |].
    + apply ret_inv in H2. destruct H2 as (-> & _ & ->).
      rewrite app_nil_r. destruct Hr as (-> & t0 & button & name & -> & Hc).
      split; [exists 1; rewrite Hv; reflexivity |].
      split; [reflexivity |].
      exists [], o, rest, t0, button, name. auto.
    + apply IH in H2. destruct H2 as [[n Hn] Hr2].
      rewrite visited_app, clicked_app, Hv, Hr. split.
      * exists (S n). rewrite Hn. reflexivity.
      * destruct r as [[b |] | e]; [| | exact I].
        -- destruct Hr2 as (-> & before & o' & after & t0 & button & name
                            & -> & Hv2 & -> & Hc2).
           split; [reflexivity |].
           exists (o :: before), o', after, (t1 ++ t0)%list, button, name.
           rewrite Hv2, Hc2. repeat split; try reflexivity.
           rewrite app_assoc. reflexivity.
        -- destruct Hr2 as [-> ->]. auto.
Qed.


Lemma prefix_events_twice {A} (t1 t2 : list event)
  (x : result A * state * list event) :
  prefix_events t1 (prefix_events t2 x) = prefix_events (t1 ++ t2) x.
Proof. destruct x as [[r s] t]. simpl. rewrite app_assoc. reflexivity. Qed.

Lemma prefix_events_nil {A} (x : result A * state * list event) :
  prefix_events [] x = x.
Proof. destruct x as [[r s] t]. reflexivity. Qed.

(** A turn that ends without a booking hands over to the next option. *)
Lemma sweep_next (pg : page) o rest s s1 t1 :
  visit pg o s = (Ret None, s1, t1) ->
  sweep pg (o :: rest) s = prefix_events t1 (sweep pg rest s1).
Proof.
  intros H. unfold sweep. cbn [for_each].
  rewrite (bind_Ret _ _ _ _ _ _ H). reflexivity.
Qed.

Lemma sweep_app (pg : page) before rest :
  forall s s1 t1,
    sweep pg before s = (Ret None, s1, t1) ->
    sweep pg (before ++ rest) s = prefix_events t1 (sweep pg rest s1).
Proof.
  induction before as [| o before IH]; intros s s1 t1 H.
  - apply ret_inv in H. destruct H as (_ & -> & ->).
    rewrite prefix_events_nil. reflexivity.
  - unfold sweep in H. cbn [for_each] in H. apply bind_inv in H.
    destruct H as [(a & s2 & t2 & t3 & H1 & H2 & ->) | (e & H1 & He)];
      [| discriminate He].
    destruct a as [v |].
    { apply ret_inv in H2. destruct H2 as (E & _). discriminate E. }
    cbn [app]. rewrite (sweep_next _ _ _ _ _ _ H1).
    rewrite (IH _ _ _ H2), prefix_events_twice. reflexivity.
Qed.

(** C3, as the code has it.  An exception raised inside the scanner while
    an option is processed is caught there: the turn ends as a turn without
    a slot, with the log records and the pause, and the sweep goes on with
    the next option.  An exception raised by any other step of the turn
    leaves the loop: it is caught by the one handler around the whole loop,
    logged, and [check_and_reschedule] answers [False] at once; the options
    after the failing one are not visited. *)
Theorem sweep_exception_scope (pg : page) :
  (forall o rest s name button s1 t1 d2 e s3 t3,
      approach pg o s = (Ret (name, Some button), s1, t1) ->
      elem_is_disabled button (drv s1) = (Ret false, d2) ->
      select_date_and_time_body pg {| drv := d2; vars := vars s1 |}
        = (Raise e, s3, t3) ->
      sweep pg (o :: rest) s =
        prefix_events
          (t1 ++ [EvIsDisabled button] ++ t3
           ++ [EvLog ERROR ("Error selecting date and time: " ++ exn_str e);
               EvLog INFO ("No available appointments at " ++ name ++ ".");
               EvSleep SLEEP_AFTER_SELECT])%list
          (sweep pg rest s3))
  /\ (forall s before o after d0 s1 t1 e s2 t2,
        page_query_selector_all pg SEL_FACILITY_OPTIONS (drv s)
          = (Ret (before ++ o :: after)%list, d0) ->
        sweep pg before {| drv := d0; vars := vars s |} = (Ret None, s1, t1) ->
        visit pg o s1 = (Raise e, s2, t2) ->
        check_and_reschedule pg s =
          (Ret false, s2,
           ([EvQuerySelectorAll pg SEL_FACILITY_OPTIONS] ++ t1 ++ t2
            ++ [EvLog ERROR ("Error during location check and reschedule: "
                             ++ exn_str e)])%list)
        /\ visited (snd (check_and_reschedule pg s)) = (before ++ [o])%list).
Proof.
  split.
  - intros o rest s name button s1 t1 d2 e s3 t3 Ha Hd Hb.
    apply sweep_next. unfold visit.
    rewrite (bind_Ret _ _ _ _ _ _ Ha). cbn beta iota.
    assert (E : attempt pg name (Some button) s1 =
                (Ret false, s3,
                 ([EvIsDisabled button] ++ t3
                  ++ [EvLog ERROR ("Error selecting date and time: "
                                   ++ exn_str e)])%list)).
    { unfold attempt.
      rewrite (bind_Ret _ _ _ _ _ _ (call_run _ _ _ _ _ Hd)). cbn iota.
      unfold select_date_and_time.
      erewrite bind_Ret.
      2:{ rewrite (try_except_Raise _ _ _ _ _ _ Hb). reflexivity. }
      unfold ret. cbn [prefix_events app]. rewrite ?app_nil_r.
      reflexivity. }
    rewrite (bind_Ret _ _ _ _ _ _ E). cbn iota.
    unfold bind, log, sleep, ret. cbn [prefix_events].
    rewrite <- !app_assoc. reflexivity.
  - intros s before o after d0 s1 t1 e s2 t2 Hq Hs Hv.
    assert (E : check_and_reschedule pg s =
      (Ret false, s2,
       ([EvQuerySelectorAll pg SEL_FACILITY_OPTIONS] ++ t1 ++ t2
        ++ [EvLog ERROR ("Error during location check and reschedule: "
                         ++ exn_str e)])%list)).
    { unfold check_and_reschedule.
      erewrite try_except_Raise.
      2:{ rewrite (bind_Ret _ _ _ _ _ _ (call_run _ _ _ _ _ Hq)).
          erewrite bind_Raise.
          2:{ rewrite (sweep_app _ _ _ _ _ _ Hs). unfold sweep.
              cbn [for_each]. rewrite (bind_Raise _ _ _ _ _ _ Hv).
              reflexivity. }
          reflexivity. }
      unfold bind, log, ret. cbn [prefix_events].
      rewrite <- !app_assoc. reflexivity. }
    split; [exact E |]. rewrite E. cbn [snd].
    apply sweep_outcomes in Hs. destruct Hs as (_ & Hb & _).
    apply visit_outcomes in Hv. destruct Hv as (Ho & _).
    rewrite !visited_app, Hb, Ho. cbn [visited flat_map app].
    reflexivity.
Qed.

End Sweep.

(** ** The retry loop: [login_and_schedule] *)

Section Orchestrator.

Context {D : Driver}.

Variables username password : string.

Lemma scanner_page_events (pg : page) :
  safe page_event (select_date_and_time pg).
Proof.
  apply (safe_weaken scanner_event); [| apply select_date_and_time_events].
  intros ev. destruct ev; simpl; intros H; try reflexivity; discriminate.
Qed.

Lemma login_page_events (pg : page) : safe page_event (login username password pg).
Proof. unfold login. safe_auto. Qed.

Lemma navigate_page_events (pg : page) :
  safe page_event (navigate_to_appointment pg).
Proof.
  unfold navigate_to_appointment, search_appointment_number. safe_auto.
Qed.

Lemma check_page_events (pg : page) :
  safe page_event (check_and_reschedule pg).
Proof.
  unfold check_and_reschedule. apply safe_try_except; [| intros e; safe_auto].
  apply safe_bind; [safe_auto |]. intros options.
  apply safe_bind; [| intros r; safe_auto].
  unfold sweep. apply safe_for_each. intros o.
  unfold visit, approach, attempt.
  repeat first [ apply scanner_page_events | safe_step ].
Qed.

Lemma login_and_reschedule_page_events (pg : page) :
  safe page_event (login_and_reschedule username password pg).
Proof.
  unfold login_and_reschedule.
  repeat first [ apply login_page_events | apply navigate_page_events
               | apply check_page_events | safe_step ].
Qed.

Lemma except_clauses_run (e : exn) (s : state) :
  except_clauses e s = (Ret Next, s, [EvLog ERROR (retry_message e)]).
Proof. unfold except_clauses. destruct (is_TimeoutError e); reflexivity. Qed.

Lemma try_except_bind_Ret {A B} (m : M A) (k : A -> M B) h s a s1 t1 :
  m s = (Ret a, s1, t1) ->
  try_except (bind m k) h s = prefix_events t1 (try_except (k a) h s1).
Proof.
  intros H. unfold try_except, bind. rewrite H.
  destruct (k a s1) as [[[b | e] s2] t2]; cbn [prefix_events].
  - reflexivity.
  - destruct (h e s2) as [[r3 s3] t3]. cbn [prefix_events].
    rewrite app_assoc. reflexivity.
Qed.

Lemma try_except_bind_Raise {A B} (m : M A) (k : A -> M B) h s e s1 t1 :
  m s = (Raise e, s1, t1) ->
  try_except (bind m k) h s = prefix_events t1 (h e s1).
Proof. intros H. unfold try_except, bind. rewrite H. reflexivity. Qed.

(** What line 129 performs: the launch comes first, and the three calls
    are all there when a session is returned. *)
Lemma launch_inv (p : playwright) s r s1 t1 :
  launch_browser_in_incognito p s = (r, s1, t1) ->
  vars s1 = vars s
  /\ forallb session_event t1 = true
  /\ (exists t', t1 = EvLaunch p HEADLESS_MODE :: t')
  /\ match r with
     | Ret (b, c, pg) =>
         t1 = [EvLaunch p HEADLESS_MODE; EvNewContext b; EvNewPage c]
     | Raise _ => True
     end.
Proof.
  unfold launch_browser_in_incognito. intros H.
  apply bind_inv in H.
  destruct H as [(b & s2 & t2 & t3 & H1 & H2 & ->) | (e & H1 & ->)];
    apply call_inv in H1; destruct H1 as (-> & Hv1 & _).
  2:{ cbn [app]; repeat split; try reflexivity; try congruence;
      try (eexists; reflexivity). }
  apply bind_inv in H2.
  destruct H2 as [(c & s3 & t4 & t5 & H3 & H4 & ->) | (e & H3 & ->)];
    apply call_inv in H3; destruct H3 as (-> & Hv2 & _).
  2:{ cbn [app]; repeat split; try reflexivity; try congruence;
      try (eexists; reflexivity). }
  apply bind_inv in H4.
  destruct H4 as [(pg & s4 & t6 & t7 & H5 & H6 & ->) | (e & H5 & ->)];
    apply call_inv in H5; destruct H5 as (-> & Hv3 & _).
  2:{ cbn [app]; repeat split; try reflexivity; try congruence;
      try (eexists; reflexivity). }
  apply ret_inv in H6. destruct H6 as (-> & -> & ->).
  cbn [app]; repeat split; try reflexivity; try congruence;
      try (eexists; reflexivity).
Qed.

(** Lines 131-141 never raise, leave the local variables as they are and
    stay on the page. *)
Lemma guarded_session (pg : page) s r s' t :
  try_except (login_and_reschedule username password pg) except_clauses s
    = (r, s', t) ->
  (exists sig, r = Ret sig) /\ vars s' = vars s
  /\ forallb page_event t = true.
Proof.
  intros H. apply try_except_inv in H.
  destruct H as [(sig & H & ->) | (e & s1 & t1 & t2 & H & Hh & ->)].
  - apply login_and_reschedule_page_events in H. destruct H. eauto.
  - apply login_and_reschedule_page_events in H. destruct H as [Hv Ht].
    rewrite except_clauses_run in Hh. inversion Hh; subst.
    rewrite forallb_app, Ht. eauto.
Qed.

Lemma try_part_with_session (p : playwright) s b c pg s1 t1 :
  launch_browser_in_incognito p s = (Ret (b, c, pg), s1, t1) ->
  try_except (try_suite username password p) except_clauses s =
    prefix_events t1
      (try_except (login_and_reschedule username password pg) except_clauses
         {| drv := drv s1; vars := session_locals b c pg |}).
Proof.
  intros H. unfold try_suite.
  rewrite (try_except_bind_Ret _ _ _ _ _ _ _ H). cbn beta iota.
  erewrite try_except_bind_Ret by reflexivity.
  rewrite prefix_events_nil. reflexivity.
Qed.

Lemma try_part_without_session (p : playwright) s e s1 t1 :
  launch_browser_in_incognito p s = (Raise e, s1, t1) ->
  try_except (try_suite username password p) except_clauses s =
    (Ret Next, s1, (t1 ++ [EvLog ERROR (retry_message e)])%list).
Proof.
  intros H. unfold try_suite.
  rewrite (try_except_bind_Raise _ _ _ _ _ _ _ H), except_clauses_run.
  reflexivity.
Qed.

(** The [finally] clause when both variables are bound and both [close]
    calls answer. *)
Lemma finally_run (s : state) b c d1 d2 :
  l_context (vars s) = Some c ->
  l_browser (vars s) = Some b ->
  context_close c (drv s) = (Ret tt, d1) ->
  browser_close b d1 = (Ret tt, d2) ->
  finally_clause s =
    (Ret tt, {| drv := d2; vars := vars s |},
     [EvContextClose c; EvBrowserClose b; EvSleep RETRY_INTERVAL]).
Proof.
  intros Hc Hb H1 H2. unfold finally_clause, bind, get_locals.
  cbn [prefix_events]. rewrite Hc, Hb.
  rewrite (call_run _ _ _ _ _ H1). cbn [prefix_events drv vars].
  unfold call at 1. cbn [drv vars]. rewrite H2. reflexivity.
Qed.

(** A cycle that got its session: whatever happens on the page, the
    session is closed at the end, then comes the pause. *)
Lemma cycle_with_session (p : playwright) s b c pg s1 t1 r2 s2 t2 d3 d4 :
  launch_browser_in_incognito p s = (Ret (b, c, pg), s1, t1) ->
  try_except (login_and_reschedule username password pg) except_clauses
    {| drv := drv s1; vars := session_locals b c pg |} = (r2, s2, t2) ->
  context_close c (drv s2) = (Ret tt, d3) ->
  browser_close b d3 = (Ret tt, d4) ->
  cycle username password p s =
    (r2, {| drv := d4; vars := session_locals b c pg |},
     (t1 ++ t2 ++ [EvContextClose c; EvBrowserClose b;
                   EvSleep RETRY_INTERVAL])%list)
  /\ (exists sig, r2 = Ret sig)
  /\ forallb page_event t2 = true.
Proof.
  intros Hl Hb Hc1 Hc2.
  destruct (guarded_session _ _ _ _ _ Hb) as (Hsig & Hv & Ht).
  cbn [vars] in Hv.
  split; [| auto].
  unfold cycle, try_finally.
  rewrite (try_part_with_session _ _ _ _ _ _ _ Hl), Hb.
  cbn [prefix_events].
  rewrite (finally_run s2 b c d3 d4); try (rewrite Hv; reflexivity); auto.
  rewrite Hv, <- app_assoc. reflexivity.
Qed.

Lemma while_true_Break (body : M signal) k s s1 t1 :
  body s = (Ret Break, s1, t1) ->
  while_true (S k) body s = (Ret (Some tt), s1, t1).
Proof.
  intros H. cbn [while_true]. rewrite (bind_Ret _ _ _ _ _ _ H).
  unfold ret. cbn [prefix_events]. rewrite app_nil_r. reflexivity.
Qed.

Lemma while_true_Next (body : M signal) k s s1 t1 :
  body s = (Ret Next, s1, t1) ->
  while_true (S k) body s = prefix_events t1 (while_true k body s1).
Proof.
  intros H. cbn [while_true]. rewrite (bind_Ret _ _ _ _ _ _ H).
  reflexivity.
Qed.

Lemma cycle_without_session (p : playwright) s e s1 t1 b c d2 d3 :
  launch_browser_in_incognito p s = (Raise e, s1, t1) ->
  l_context (vars s) = Some c ->
  l_browser (vars s) = Some b ->
  context_close c (drv s1) = (Ret tt, d2) ->
  browser_close b d2 = (Ret tt, d3) ->
  cycle username password p s =
    (Ret Next, {| drv := d3; vars := vars s |},
     (t1 ++ [EvLog ERROR (retry_message e); EvContextClose c;
             EvBrowserClose b; EvSleep RETRY_INTERVAL])%list).
Proof.
  intros Hl Hc Hb H1 H2.
  destruct (launch_inv _ _ _ _ _ Hl) as (Hv & _).
  unfold cycle, try_finally.
  rewrite (try_part_without_session _ _ _ _ _ Hl).
  rewrite (finally_run s1 b c d2 d3); try (rewrite Hv; assumption); auto.
  rewrite Hv, <- app_assoc. reflexivity.
Qed.

(** The first cycle of a run whose browser does not start: the guards of
    lines 144 and 146 find no variable bound and nothing is closed. *)
Lemma cycle_without_any_session (p : playwright) s e s1 t1 :
  launch_browser_in_incognito p s = (Raise e, s1, t1) ->
  vars s = no_locals ->
  cycle username password p s =
    (Ret Next, s1,
     (t1 ++ [EvLog ERROR (retry_message e); EvSleep RETRY_INTERVAL])%list).
Proof.
  intros Hl Hn.
  destruct (launch_inv _ _ _ _ _ Hl) as (Hv & _).
  unfold cycle, try_finally.
  rewrite (try_part_without_session _ _ _ _ _ Hl).
  unfold finally_clause, bind, get_locals. cbn [prefix_events].
  rewrite Hv, Hn. cbn. rewrite <- app_assoc. reflexivity.
Qed.

Lemma cycle_starts_with_launch (p : playwright) (s : state) :
  exists t', snd (cycle username password p s)
             = EvLaunch p HEADLESS_MODE :: t'.
Proof.
  unfold cycle, try_finally, try_suite.
  destruct (launch_browser_in_incognito p s) as [[[a | e] s1] t1] eqn:E;
    destruct (launch_inv _ _ _ _ _ E) as (_ & _ & (t' & ->) & _).
  - rewrite (try_except_bind_Ret _ _ _ _ _ _ _ E).
    match goal with
    | |- context [prefix_events _ ?x] => destruct x as [[r2 s2] t2]
    end.
    cbn [prefix_events].
    destruct (finally_clause s2) as [[[u | e] s3] t3]; cbn [snd app]; eauto.
  - rewrite (try_except_bind_Raise _ _ _ _ _ _ _ E).
    match goal with
    | |- context [prefix_events _ ?x] => destruct x as [[r2 s2] t2]
    end.
    cbn [prefix_events].
    destruct (finally_clause s2) as [[[u | e'] s3] t3]; cbn [snd app]; eauto.
Qed.

(** The cycle in which the sweep reports a booking. *)
Lemma cycle_booked (p : playwright) s b c pg s1 t1 s2 t2 s3 t3 s4 t4 d5 d6 :
  launch_browser_in_incognito p s = (Ret (b, c, pg), s1, t1) ->
  login username password pg
    {| drv := drv s1; vars := session_locals b c pg |} = (Ret tt, s2, t2) ->
  navigate_to_appointment pg s2 = (Ret tt, s3, t3) ->
  check_and_reschedule pg s3 = (Ret true, s4, t4) ->
  context_close c (drv s4) = (Ret tt, d5) ->
  browser_close b d5 = (Ret tt, d6) ->
  cycle username password p s =
    (Ret Break, {| drv := d6; vars := session_locals b c pg |},
     (t1 ++ t2 ++ t3 ++ t4
      ++ [EvLog INFO "Appointment successfully rescheduled. Exiting.";
          EvContextClose c; EvBrowserClose b;
          EvSleep RETRY_INTERVAL])%list).
Proof.
  intros Hl Hlog Hnav Hchk Hc1 Hc2.
  assert (E : try_except (login_and_reschedule username password pg)
                except_clauses
                {| drv := drv s1; vars := session_locals b c pg |}
              = (Ret Break, s4,
                 (t2 ++ t3 ++ t4
                  ++ [EvLog INFO
                        "Appointment successfully rescheduled. Exiting."])%list)).
  { apply try_except_Ret. unfold login_and_reschedule.
    rewrite (bind_Ret _ _ _ _ _ _ Hlog), (bind_Ret _ _ _ _ _ _ Hnav),
      (bind_Ret _ _ _ _ _ _ Hchk).
    unfold bind, log, ret. cbn [prefix_events app]. reflexivity. }
  destruct (cycle_with_session _ _ _ _ _ _ _ _ _ _ _ _ Hl E Hc1 Hc2)
    as (Hcy & _).
  rewrite Hcy. rewrite <- !app_assoc. reflexivity.
Qed.

(** The release where line 129 returned.  In a cycle that got its session
    from line 129, the [finally] clause closes the context and the browser of that session, once each,
    whatever the rest of the cycle did (a booking, a [TimeoutError], any
    other exception, a sweep without a slot): the events of the cycle are
    the three calls that acquire the session, events on the page, and then
    the two [close] calls and the pause.  No exception leaves the cycle, so
    the next launch comes after the release.  When that next launch fails,
    the variables still hold the closed session and the [finally] clause
    closes it a second time; as the [close] calls answer, the cycle ends
    like any other and the loop goes on. *)
Theorem session_released_once
  (p : playwright) (s : state) (b : browser) (c : context) (pg : page)
  (s1 : state) (t1 : list event) (d3 d4 : dstate) :
  launch_browser_in_incognito p s = (Ret (b, c, pg), s1, t1) ->
  context_close c
    (drv (snd (fst (try_except (try_suite username password p)
                      except_clauses s)))) = (Ret tt, d3) ->
  browser_close b d3 = (Ret tt, d4) ->
  (exists sig mid,
      cycle username password p s =
        (Ret sig, {| drv := d4; vars := session_locals b c pg |},
         ([EvLaunch p HEADLESS_MODE; EvNewContext b; EvNewPage c] ++ mid
          ++ [EvContextClose c; EvBrowserClose b;
              EvSleep RETRY_INTERVAL])%list)
      /\ forallb page_event mid = true)
  /\ (forall e s5 t5 d6 d7,
        launch_browser_in_incognito p
          {| drv := d4; vars := session_locals b c pg |}
          = (Raise e, s5, t5) ->
        context_close c (drv s5) = (Ret tt, d6) ->
        browser_close b d6 = (Ret tt, d7) ->
        cycle username password p
          {| drv := d4; vars := session_locals b c pg |} =
          (Ret Next, {| drv := d7; vars := session_locals b c pg |},
           (t5 ++ [EvLog ERROR (retry_message e); EvContextClose c;
                   EvBrowserClose b; EvSleep RETRY_INTERVAL])%list)).
Proof.
  intros Hl Hc1 Hc2. split.
  - rewrite (try_part_with_session _ _ _ _ _ _ _ Hl) in Hc1.
    destruct (try_except (login_and_reschedule username password pg)
                except_clauses
                {| drv := drv s1; vars := session_locals b c pg |})
      as [[r2 s2] t2] eqn:E.
    cbn [prefix_events snd fst] in Hc1.
    destruct (cycle_with_session _ _ _ _ _ _ _ _ _ _ _ _ Hl E Hc1 Hc2)
      as (Hcy & (sig & ->) & Hp).
    destruct (launch_inv _ _ _ _ _ Hl) as (_ & _ & _ & ->).
    exists sig, t2. split; [exact Hcy | exact Hp].
  - intros e s5 t5 d6 d7 Hl2 H1 H2.
    apply (cycle_without_session _ _ _ _ _ b c d6 d7 Hl2); auto.
Qed.

(** C2.  When the sweep of a cycle reports a booking, the loop is left in
    that cycle, however many turns it could still take: the run consists of
    that one launch, one [login], one [navigate_to_appointment], one
    [check_and_reschedule] and the end of the cycle, and nothing comes
    after. *)
Theorem booking_ends_the_loop
  (p : playwright) (s : state) (b : browser) (c : context) (pg : page)
  (s1 s2 s3 s4 : state) (t1 t2 t3 t4 : list event) (d5 d6 : dstate) :
  launch_browser_in_incognito p s = (Ret (b, c, pg), s1, t1) ->
  login username password pg
    {| drv := drv s1; vars := session_locals b c pg |} = (Ret tt, s2, t2) ->
  navigate_to_appointment pg s2 = (Ret tt, s3, t3) ->
  check_and_reschedule pg s3 = (Ret true, s4, t4) ->
  context_close c (drv s4) = (Ret tt, d5) ->
  browser_close b d5 = (Ret tt, d6) ->
  forall k,
    while_true (S k) (cycle username password p) s =
      (Ret (Some tt), {| drv := d6; vars := session_locals b c pg |},
       (t1 ++ t2 ++ t3 ++ t4
        ++ [EvLog INFO "Appointment successfully rescheduled. Exiting.";
            EvContextClose c; EvBrowserClose b;
            EvSleep RETRY_INTERVAL])%list).
Proof.
  intros Hl Hlog Hnav Hchk Hc1 Hc2 k.
  apply while_true_Break.
  apply (cycle_booked _ _ _ _ _ _ _ _ _ _ _ _ _ _ _ Hl Hlog Hnav Hchk Hc1 Hc2).
Qed.

(** C10.  On the path of a booking the [finally] clause still runs before
    the function returns: after the log record of line 135 come the two
    [close] calls and the full pause of [RETRY_INTERVAL] seconds, and only
    then is Playwright left. *)
Theorem teardown_and_sleep_after_booking
  (s : state) (p : playwright) (d0 : dstate)
  (b : browser) (c : context) (pg : page)
  (s1 s2 s3 s4 : state) (t1 t2 t3 t4 : list event) (d5 d6 d7 : dstate) :
  sync_playwright_enter (drv s) = (Ret p, d0) ->
  launch_browser_in_incognito p {| drv := d0; vars := no_locals |}
    = (Ret (b, c, pg), s1, t1) ->
  login username password pg
    {| drv := drv s1; vars := session_locals b c pg |} = (Ret tt, s2, t2) ->
  navigate_to_appointment pg s2 = (Ret tt, s3, t3) ->
  check_and_reschedule pg s3 = (Ret true, s4, t4) ->
  context_close c (drv s4) = (Ret tt, d5) ->
  browser_close b d5 = (Ret tt, d6) ->
  sync_playwright_exit p d6 = (Ret tt, d7) ->
  forall k,
    login_and_schedule username password (S k) s =
      (Ret (Some tt), {| drv := d7; vars := session_locals b c pg |},
       ([EvEnter] ++ t1 ++ t2 ++ t3 ++ t4
        ++ [EvLog INFO "Appointment successfully rescheduled. Exiting.";
            EvContextClose c; EvBrowserClose b; EvSleep RETRY_INTERVAL;
            EvExit p])%list).
Proof.
  intros He Hl Hlog Hnav Hchk Hc1 Hc2 Hx k.
  pose proof (cycle_booked _ _ _ _ _ _ _ _ _ _ _ _ _ _ _
                Hl Hlog Hnav Hchk Hc1 Hc2) as Hcy.
  apply (while_true_Break _ k) in Hcy.
  unfold login_and_schedule.
  erewrite bind_Ret by reflexivity. rewrite prefix_events_nil. cbn beta.
  erewrite bind_Ret.
  2:{ unfold call. cbn [drv vars]. rewrite He. reflexivity. }
  cbn beta.
  erewrite bind_Ret.
  2:{ apply try_except_Ret. exact Hcy. }
  cbn beta iota.
  erewrite bind_Ret.
  2:{ unfold call. cbn [drv vars]. rewrite Hx. reflexivity. }
  unfold ret. cbn [prefix_events].
  rewrite <- !app_assoc. reflexivity.
Qed.

(** A continue link that is missing or whose address does not hold the
    pattern makes [navigate_to_appointment] raise, after its log record. *)
Lemma navigate_unparsable (pg : page) (s : state) rh d :
  page_get_attribute pg SEL_CONTINUE "href" (drv s) = (rh, d) ->
  href_parses rh = false ->
  exists e,
    navigate_to_appointment pg s =
      (Raise e, {| drv := d; vars := vars s |},
       [EvGetAttribute pg SEL_CONTINUE "href";
        EvLog ERROR ("Error navigating to the appointment page: "
                     ++ exn_str e)]).
Proof.
  intros Hg Hp. unfold navigate_to_appointment.
  assert (E : exists e,
    bind (call (EvGetAttribute pg SEL_CONTINUE "href")
            (page_get_attribute pg SEL_CONTINUE "href"))
      (fun continue_button_href =>
         bind (search_appointment_number continue_button_href)
           (fun appointment_number =>
              bind (call (EvGoto pg (appointment_url appointment_number))
                      (page_goto pg (appointment_url appointment_number)))
                (fun _ =>
                   bind (call (EvWaitForLoadState pg "load")
                           (page_wait_for_load_state pg "load"))
                     (fun _ =>
                        log INFO
                          "Navigated to the appointment scheduling page."))))
      s
    = (Raise e, {| drv := d; vars := vars s |},
       [EvGetAttribute pg SEL_CONTINUE "href"])).
  { destruct rh as [[href |] | e].
    - unfold href_parses in Hp.
      destruct (Re.search href) as [g |] eqn:Es; [discriminate |].
      eexists. rewrite (bind_Ret _ _ _ _ _ _ (call_run _ _ _ _ _ Hg)).
      unfold search_appointment_number. rewrite Es.
      unfold deref, bind, raise. cbn [prefix_events app]. reflexivity.
    - eexists. rewrite (bind_Ret _ _ _ _ _ _ (call_run _ _ _ _ _ Hg)).
      unfold search_appointment_number, bind, raise.
      cbn [prefix_events app]. reflexivity.
    - exists e. rewrite (bind_Raise _ _ _ _ _ _ (call_run _ _ _ _ _ Hg)).
      reflexivity. }
  destruct E as [e E]. exists e.
  rewrite (try_except_Raise _ _ _ _ _ _ E).
  unfold bind, log, raise. cbn [prefix_events app]. reflexivity.
Qed.

(** C7.  When the continue link is missing or its address does not hold
    [/schedule/<digits>/continue_actions], [navigate_to_appointment] logs
    and raises; the cycle catches the exception, logs it, closes the
    session and pauses for [RETRY_INTERVAL] seconds; the loop then takes
    its next turn, which starts with a new launch. *)
Theorem navigation_failure_retries
  (p : playwright) (s : state) (b : browser) (c : context) (pg : page)
  (s1 s2 : state) (t1 t2 : list event)
  (rh : result (option string)) (d3 d4 d5 : dstate) :
  launch_browser_in_incognito p s = (Ret (b, c, pg), s1, t1) ->
  login username password pg
    {| drv := drv s1; vars := session_locals b c pg |} = (Ret tt, s2, t2) ->
  page_get_attribute pg SEL_CONTINUE "href" (drv s2) = (rh, d3) ->
  href_parses rh = false ->
  context_close c d3 = (Ret tt, d4) ->
  browser_close b d4 = (Ret tt, d5) ->
  exists e,
    navigate_to_appointment pg s2 =
      (Raise e, {| drv := d3; vars := vars s2 |},
       [EvGetAttribute pg SEL_CONTINUE "href";
        EvLog ERROR ("Error navigating to the appointment page: "
                     ++ exn_str e)])
    /\ (forall k,
          while_true (S k) (cycle username password p) s =
            prefix_events
              (t1 ++ t2
               ++ [EvGetAttribute pg SEL_CONTINUE "href";
                   EvLog ERROR ("Error navigating to the appointment page: "
                                ++ exn_str e);
                   EvLog ERROR (retry_message e);
                   EvContextClose c; EvBrowserClose b;
                   EvSleep RETRY_INTERVAL])%list
              (while_true k (cycle username password p)
                 {| drv := d5; vars := session_locals b c pg |}))
    /\ (exists t',
          snd (cycle username password p
                 {| drv := d5; vars := session_locals b c pg |})
          = EvLaunch p HEADLESS_MODE :: t').
Proof.
  intros Hl Hlog Hg Hp Hc1 Hc2.
  destruct (navigate_unparsable pg s2 rh d3 Hg Hp) as [e Hnav].
  exists e. split; [exact Hnav |]. split; [| apply cycle_starts_with_launch].
  intros k. apply while_true_Next.
  assert (E : try_except (login_and_reschedule username password pg)
                except_clauses
                {| drv := drv s1; vars := session_locals b c pg |}
              = (Ret Next, {| drv := d3; vars := vars s2 |},
                 (t2 ++ [EvGetAttribute pg SEL_CONTINUE "href";
                         EvLog ERROR
                           ("Error navigating to the appointment page: "
                            ++ exn_str e);
                         EvLog ERROR (retry_message e)])%list)).
  { erewrite try_except_Raise.
    2:{ unfold login_and_reschedule.
        rewrite (bind_Ret _ _ _ _ _ _ Hlog), (bind_Raise _ _ _ _ _ _ Hnav).
        reflexivity. }
    rewrite except_clauses_run. cbn [prefix_events].
    rewrite <- app_assoc. reflexivity. }
  destruct (cycle_with_session _ _ _ _ _ _ _ _ _ _ _ _ Hl E Hc1 Hc2)
    as (Hcy & _).
  rewrite Hcy. rewrite <- !app_assoc. reflexivity.
Qed.

Lemma retry_sleeps_app (a b : list event) :
  retry_sleeps (a ++ b) = retry_sleeps a + retry_sleeps b.
Proof. unfold retry_sleeps. rewrite filter_app, length_app. reflexivity. Qed.

Lemma retry_sleeps_page (t : list event) :
  forallb page_event t = true -> retry_sleeps t = 0.
Proof.
  unfold retry_sleeps. induction t as [| ev t IH]; cbn [forallb filter].
  - reflexivity.
  - intros H. apply andb_true_iff in H. destruct H as [H1 H2].
    unfold page_event in H1. apply andb_true_iff in H1.
    destruct H1 as [_ H1]. apply negb_true_iff in H1. rewrite H1. auto.
Qed.

Lemma retry_sleeps_session (t : list event) :
  forallb session_event t = true -> retry_sleeps t = 0.
Proof.
  unfold retry_sleeps. induction t as [| ev t IH]; cbn [forallb filter].
  - reflexivity.
  - intros H. apply andb_true_iff in H. destruct H as [H1 H2].
    destruct ev; try discriminate H1; cbn [retry_sleep]; auto.
Qed.

(** The [try] statement without its [finally] clause never raises and
    never pauses for the retry interval; it asks for the [break] exactly
    when the [try] suite reaches line 136. *)
Lemma try_part_total (p : playwright) (s : state) :
  exists sig s' t,
    try_except (try_suite username password p) except_clauses s
      = (Ret sig, s', t)
    /\ retry_sleeps t = 0
    /\ (sig = Break <-> books username password p s = true).
Proof.
  destruct (launch_browser_in_incognito p s) as [[[[[b c] pg] | e] s1] t1]
    eqn:El.
  - destruct (launch_inv _ _ _ _ _ El) as (_ & Hs & _).
    rewrite (try_part_with_session _ _ _ _ _ _ _ El).
    unfold books, try_suite.
    rewrite (bind_Ret _ _ _ _ _ _ El). cbn beta iota.
    erewrite bind_Ret by reflexivity. rewrite prefix_events_nil.
    unfold try_except.
    destruct (login_and_reschedule username password pg _)
      as [[[sig | e] s2] t2] eqn:E;
      apply login_and_reschedule_page_events in E; destruct E as [_ Ht];
      cbn [prefix_events].
    + exists sig, s2, (t1 ++ t2)%list. split; [reflexivity |].
      rewrite retry_sleeps_app, (retry_sleeps_session _ Hs),
        (retry_sleeps_page _ Ht).
      split; [reflexivity |].
      destruct sig; split; congruence.
    + rewrite except_clauses_run. cbn [prefix_events].
      exists Next, s2, (t1 ++ t2 ++ [EvLog ERROR (retry_message e)])%list.
      split; [reflexivity |].
      rewrite !retry_sleeps_app, (retry_sleeps_session _ Hs),
        (retry_sleeps_page _ Ht).
      split; [reflexivity |]. split; discriminate.
  - destruct (launch_inv _ _ _ _ _ El) as (_ & Hs & _).
    rewrite (try_part_without_session _ _ _ _ _ El).
    exists Next, s1, (t1 ++ [EvLog ERROR (retry_message e)])%list.
    split; [reflexivity |].
    rewrite retry_sleeps_app, (retry_sleeps_session _ Hs).
    split; [reflexivity |].
    unfold books, try_suite. rewrite (bind_Raise _ _ _ _ _ _ El).
    split; discriminate.
Qed.

Section Closing.

(** The two [close] calls answer whenever they are made, also on a session
    that is closed already. *)
Hypothesis context_close_answers :
  forall (c : context) (d : dstate), exists d', context_close c d = (Ret tt, d').
Hypothesis browser_close_answers :
  forall (b : browser) (d : dstate), exists d', browser_close b d = (Ret tt, d').

Lemma finally_total (s : state) :
  exists s' t0,
    finally_clause s = (Ret tt, s', (t0 ++ [EvSleep RETRY_INTERVAL])%list)
    /\ retry_sleeps (t0 ++ [EvSleep RETRY_INTERVAL]) = 1.
Proof.
  unfold finally_clause, bind, get_locals. cbn [prefix_events].
  destruct (l_context (vars s)) as [c |];
    destruct (l_browser (vars s)) as [b |]; unfold call, sleep, ret.
  - destruct (context_close_answers c (drv s)) as [d1 E1]. rewrite E1.
    cbn [prefix_events drv vars].
    destruct (browser_close_answers b d1) as [d2 E2]. rewrite E2.
    cbn [prefix_events].
    exists {| drv := d2; vars := vars s |},
      [EvContextClose c; EvBrowserClose b].
    split; reflexivity.
  - destruct (context_close_answers c (drv s)) as [d1 E1]. rewrite E1.
    cbn [prefix_events].
    exists {| drv := d1; vars := vars s |}, [EvContextClose c].
    split; reflexivity.
  - destruct (browser_close_answers b (drv s)) as [d2 E2]. rewrite E2.
    cbn [prefix_events].
    exists {| drv := d2; vars := vars s |}, [EvBrowserClose b].
    split; reflexivity.
  - cbn [prefix_events]. exists s, []. split; reflexivity.
Qed.

(** Every cycle ends, with exactly one pause, which is its last event, and
    asks for the [break] exactly when it books. *)
Lemma cycle_total (p : playwright) (s : state) :
  exists sig,
    cycle username password p s
      = (Ret sig, after_cycle username password p s,
         snd (cycle username password p s))
    /\ retry_sleeps (snd (cycle username password p s)) = 1
    /\ (sig = Break <-> books username password p s = true)
    /\ (exists t0, snd (cycle username password p s)
                   = (t0 ++ [EvSleep RETRY_INTERVAL])%list).
Proof.
  unfold after_cycle, cycle, try_finally.
  destruct (try_part_total p s) as (sig & s1 & t1 & E & Hs & Hb).
  rewrite E.
  destruct (finally_total s1) as (s2 & t2 & Ef & Hf). rewrite Ef.
  exists sig. cbn [fst snd]. split; [reflexivity |].
  rewrite retry_sleeps_app, Hs, Hf. split; [reflexivity |].
  split; [exact Hb |]. exists (t1 ++ t2)%list.
  rewrite app_assoc. reflexivity.
Qed.

(** C9.  The loop has no bound on its turns.  After any number [N] of
    cycles none of which booked (whatever made them fail: a stalled
    sign-in, a navigation error, a sweep without a slot) the loop runs
    one more cycle, which starts with a launch.  Each of the [N] cycles
    ended with a pause of [RETRY_INTERVAL] seconds as its last event, and
    these [N] pauses are the only ones of that length: the delay is the
    same every time. *)
Theorem unbounded_retry (p : playwright) (N : nat) (s : state) :
  (forall i, i < N ->
     books username password p (state_after username password i p s)
     = false) ->
  (forall k,
      while_true (N + k) (cycle username password p) s =
        prefix_events (cycles_events username password N p s)
          (while_true k (cycle username password p)
             (state_after username password N p s)))
  /\ retry_sleeps (cycles_events username password N p s) = N
  /\ (forall i, i < N ->
        exists t0,
          snd (cycle username password p
                 (state_after username password i p s))
          = (t0 ++ [EvSleep RETRY_INTERVAL])%list)
  /\ (exists t',
        snd (cycle username password p
               (state_after username password N p s))
        = EvLaunch p HEADLESS_MODE :: t').
Proof.
  intros H.
  split; [| split; [| split; [| apply cycle_starts_with_launch]]].
  - revert s H. induction N as [| n IH]; intros s H k.
    + cbn [Nat.add cycles_events state_after].
      rewrite prefix_events_nil. reflexivity.
    + destruct (cycle_total p s) as (sig & E & _ & Hb & _).
      assert (sig = Next) as ->.
      { destruct sig; [| reflexivity].
        assert (H0 : 0 < S n) by lia. apply H in H0.
        cbn [state_after] in H0. rewrite H0 in Hb. destruct Hb as [Hb _].
        discriminate (Hb eq_refl). }
      cbn [Nat.add cycles_events state_after].
      rewrite (while_true_Next _ _ _ _ _ E).
      rewrite IH, prefix_events_twice; [reflexivity |].
      intros i Hi. apply (H (S i)). lia.
  - revert s H. induction N as [| n IH]; intros s H.
    + reflexivity.
    + destruct (cycle_total p s) as (sig & _ & Hs & _).
      cbn [cycles_events]. rewrite retry_sleeps_app, Hs, IH; [reflexivity |].
      intros i Hi. apply (H (S i)). lia.
  - intros i _.
    destruct (cycle_total p (state_after username password i p s))
      as (sig & _ & _ & _ & Ht).
    exact Ht.
Qed.

End Closing.

End Orchestrator.


(** ** The pattern of line 53 *)

Section Pattern.

Lemma append_assoc (a b c : string) : ((a ++ b) ++ c = a ++ (b ++ c))%string.
Proof. induction a as [| x a IH]; simpl; [reflexivity | now rewrite IH]. Qed.

Lemma strip_sound (p s r : string) :
  Re.strip p s = Some r -> s = (p ++ r)%string.
Proof.
  revert s. induction p as [| a p IH]; intros s; simpl.
  - intros H. inversion H. reflexivity.
  - destruct s as [| b s]; [discriminate |].
    destruct (Ascii.eqb a b) eqn:E; [| discriminate].
    apply Ascii.eqb_eq in E. subst b. intros H. apply IH in H. now subst s.
Qed.

Lemma strip_append (p r : string) : Re.strip p (p ++ r) = Some r.
Proof.
  induction p as [| a p IH]; simpl; [reflexivity |].
  rewrite Ascii.eqb_refl. exact IH.
Qed.

(** What [first_char] takes off the text is the UTF-8 text of the code
    point it gives. *)
Lemma first_char_cases {A : Type} (s : string) (none : A)
  (some : N -> string -> A) :
  Re.first_char s none some = none
  \/ exists c rest,
       s = (Re.utf8 c ++ rest)%string
       /\ Re.first_char s none some = some c rest.
Proof.
  unfold Re.first_char.
  destruct s as [| b0 s0]; [now left |].
  destruct (N_of_ascii b0 <? 128)%N eqn:E0.
  { right. exists (N_of_ascii b0), s0. split; [| reflexivity].
    unfold Re.utf8. rewrite E0. unfold Re.byte.
    rewrite ascii_N_embedding. reflexivity. }
  destruct s0 as [| b1 s1]; [now left |].
  match goal with
  | |- context [if (?u =? ?v)%string then _ else _] =>
      destruct (u =? v)%string eqn:E1
  end.
  { right. apply String.eqb_eq in E1. eexists _, s1.
    split; [| reflexivity]. rewrite E1. reflexivity. }
  destruct s1 as [| b2 s2]; [now left |].
  match goal with
  | |- context [if (?u =? ?v)%string then _ else _] =>
      destruct (u =? v)%string eqn:E2
  end.
  { right. apply String.eqb_eq in E2. eexists _, s2.
    split; [| reflexivity]. rewrite E2. reflexivity. }
  destruct s2 as [| b3 s3]; [now left |].
  match goal with
  | |- context [if (?u =? ?v)%string then _ else _] =>
      destruct (u =? v)%string eqn:E3
  end.
  { right. apply String.eqb_eq in E3. eexists _, s3.
    split; [| reflexivity]. rewrite E3. reflexivity. }
  now left.
Qed.

(** An ASCII byte is a character of its own. *)
Lemma first_char_ascii {A : Type} (b : ascii) (s : string) (none : A)
  (some : N -> string -> A) :
  (N_of_ascii b <? 128)%N = true ->
  Re.first_char (String b s) none some = some (N_of_ascii b) s.
Proof. intros H. unfold Re.first_char. rewrite H. reflexivity. Qed.

Lemma span_digits_eq (s : string) :
  Re.span_digits s =
    Re.first_char s (EmptyString, s)
      (fun c rest =>
         if Re.is_decimal c
         then let (ds, tl) := Re.span_digits rest in
              ((Re.utf8 c ++ ds)%string, tl)
         else (EmptyString, s)).
Proof. destruct s; reflexivity. Qed.

Lemma utf8_length (c : N) : 1 <= String.length (Re.utf8 c).
Proof.
  unfold Re.utf8.
  destruct (c <? 128)%N; [simpl; lia |].
  destruct (c <? 2048)%N; [simpl; lia |].
  destruct (c <? 65536)%N; simpl; lia.
Qed.

Lemma length_append (a b : string) :
  String.length (a ++ b) = String.length a + String.length b.
Proof. induction a as [| x a IH]; simpl; [reflexivity | now rewrite IH]. Qed.

(** The run taken by [\d+] is made of decimal digits, and the text is the
    run and the rest. *)
Lemma span_digits_sound (s ds rest : string) :
  Re.span_digits s = (ds, rest) ->
  s = (ds ++ rest)%string /\ decimal_digits ds.
Proof.
  remember (String.length s) as n eqn:Hn.
  revert s Hn ds rest.
  induction n as [n IH] using lt_wf_ind. intros s Hn ds rest.
  rewrite span_digits_eq.
  destruct (first_char_cases s (EmptyString, s)
              (fun c rest0 =>
                 if Re.is_decimal c
                 then let (ds0, tl) := Re.span_digits rest0 in
                      ((Re.utf8 c ++ ds0)%string, tl)
                 else (EmptyString, s)))
    as [E | (c & r & Hs & E)]; rewrite E; clear E.
  - intros H. inversion H; subst. split; [reflexivity | constructor].
  - destruct (Re.is_decimal c) eqn:Ec.
    + destruct (Re.span_digits r) as [ds0 tl] eqn:Er.
      intros H. inversion H; subst ds rest. clear H.
      assert (Hlt : String.length r < n).
      { subst n. rewrite Hs, length_append.
        pose proof (utf8_length c). lia. }
      destruct (IH _ Hlt r eq_refl _ _ Er) as [Hr Hd].
      split.
      * rewrite Hs, Hr. symmetry. apply append_assoc.
      * constructor; assumption.
    + intros H. inversion H; subst. split; [reflexivity | constructor].
Qed.

Lemma ascii_digit_decimal (c : ascii) :
  ascii_digit c = true ->
  (N_of_ascii c <? 128)%N = true
  /\ Re.is_decimal (N_of_ascii c) = true
  /\ Re.utf8 (N_of_ascii c) = String c EmptyString.
Proof.
  destruct c as [[] [] [] [] [] [] [] []]; intros H;
    try discriminate H; repeat split; reflexivity.
Qed.

(** A run of ASCII digits is a run of decimal digits. *)
Lemma all_digits_decimal (g : string) :
  all_digits g = true -> decimal_digits g.
Proof.
  induction g as [| c g IH]; simpl; [constructor |].
  intros H. apply andb_true_iff in H. destruct H as [Hc Hg].
  destruct (ascii_digit_decimal c Hc) as (_ & Hd & Hu).
  change (String c g) with (String c EmptyString ++ g)%string.
  rewrite <- Hu. constructor; [exact Hd | exact (IH Hg)].
Qed.

Lemma span_digits_append (g rest : string) :
  all_digits g = true ->
  Re.span_digits (g ++ String "/" rest) = (g, String "/" rest).
Proof.
  intros Hg. induction g as [| x g IH].
  - reflexivity.
  - simpl in Hg. apply andb_true_iff in Hg. destruct Hg as [Hx Hg].
    destruct (ascii_digit_decimal x Hx) as (Hlt & Hd & Hu).
    cbn [append]. rewrite span_digits_eq, (first_char_ascii _ _ _ _ Hlt).
    rewrite Hd, (IH Hg), Hu. reflexivity.
Qed.

Lemma match_here_sound (s g : string) :
  Re.match_here s = Some g ->
  g <> EmptyString /\ decimal_digits g
  /\ exists post, s = ("/schedule/" ++ g ++ "/continue_actions" ++ post)%string.
Proof.
  unfold Re.match_here.
  destruct (Re.strip "/schedule/" s) as [rest |] eqn:E1; [| discriminate].
  destruct (Re.span_digits rest) as [ds tl] eqn:E2.
  destruct ds as [| c ds]; [discriminate |].
  destruct (Re.strip "/continue_actions" tl) as [post |] eqn:E3;
    [| discriminate].
  intros H. inversion H; subst g. clear H.
  apply strip_sound in E1. apply strip_sound in E3.
  apply span_digits_sound in E2. destruct E2 as [E2 Hd].
  split; [discriminate |]. split; [exact Hd |].
  exists post. rewrite E1, E2, E3. reflexivity.
Qed.

Lemma match_here_complete (g post : string) :
  g <> EmptyString -> all_digits g = true ->
  Re.match_here ("/schedule/" ++ g ++ "/continue_actions" ++ post) = Some g.
Proof.
  intros Hne Hd. unfold Re.match_here.
  rewrite (strip_append "/schedule/").
  change ("/continue_actions" ++ post)%string
    with (String "/" ("continue_actions" ++ post))%string.
  rewrite (span_digits_append g _ Hd).
  destruct g as [| c g]; [contradiction |].
  change (String "/" ("continue_actions" ++ post))%string
    with ("/continue_actions" ++ post)%string.
  rewrite (strip_append "/continue_actions"). reflexivity.
Qed.

(** A match found by the search is a match of the pattern at some place
    of the text. *)
Lemma search_inv (s g : string) :
  Re.search s = Some g ->
  exists pre rest, s = (pre ++ rest)%string /\ Re.match_here rest = Some g.
Proof.
  induction s as [| c s IH]; cbn [Re.search].
  - destruct (Re.match_here EmptyString) eqn:E; [| discriminate].
    intros H. inversion H; subst. exists EmptyString, EmptyString. auto.
  - destruct (Re.match_here (String c s)) eqn:E.
    + intros H. inversion H; subst. exists EmptyString, (String c s). auto.
    + intros H. destruct (IH H) as (pre & rest & -> & Hm).
      exists (String c pre), rest. auto.
Qed.

(** What [re.search] returns is a match of the pattern: the group is a
    non-empty run of decimal digits, ASCII or not, that stands in the text
    between [/schedule/] and [/continue_actions]. *)
Theorem search_sound (s g : string) :
  Re.search s = Some g ->
  g <> EmptyString /\ decimal_digits g
  /\ exists pre post,
      s = (pre ++ "/schedule/" ++ g ++ "/continue_actions" ++ post)%string.
Proof.
  intros H. destruct (search_inv _ _ H) as (pre & rest & Hs & Hm).
  destruct (match_here_sound _ _ Hm) as (Hne & Hd & post & Hr).
  split; [exact Hne |]. split; [exact Hd |].
  exists pre, post. rewrite Hs, Hr. reflexivity.
Qed.

(** Every text that holds the pattern is matched: the search finds an
    appointment number in it, and finds [g] itself when the text starts
    with the pattern. *)
Theorem search_complete (pre g post : string) :
  g <> EmptyString -> all_digits g = true ->
  Re.search ("/schedule/" ++ g ++ "/continue_actions" ++ post) = Some g
  /\ exists g',
      Re.search (pre ++ "/schedule/" ++ g ++ "/continue_actions" ++ post)
      = Some g'.
Proof.
  intros Hne Hd.
  assert (H0 : Re.search ("/schedule/" ++ g ++ "/continue_actions" ++ post)
               = Some g).
  { pose proof (match_here_complete g post Hne Hd) as E.
    cbn [append] in E |- *. cbn [Re.search]. cbn [append] in E.
    rewrite E. reflexivity. }
  split; [exact H0 |].
  induction pre as [| c pre IH].
  - exists g. exact H0.
  - destruct IH as [g' IH]. cbn [append Re.search].
    destruct (Re.match_here _) as [g'' |]; [exists g''; reflexivity |].
    exists g'. exact IH.
Qed.

End Pattern.

(** ** [login] and [navigate_to_appointment] *)

Lemma raise_inv {D : Driver} {A} (e : exn) (s : state) (r : result A) s' t :
  raise e s = (r, s', t) -> r = Raise e /\ s' = s /\ t = [].
Proof. intros H. inversion H; subst. auto. Qed.

Lemma deref_inv {D : Driver} {A} (o : option A) attr (s : state) r s' t :
  deref o attr s = (r, s', t) ->
  s' = s /\ t = []
  /\ match o with
     | Some a => r = Ret a
     | None => exists e, r = Raise e
     end.
Proof.
  destruct o as [a |]; unfold deref; intros H.
  - apply ret_inv in H. tauto.
  - apply raise_inv in H. destruct H as (-> & -> & ->). eauto.
Qed.

(** Take a run apart, one statement at a time. *)
Ltac inv_run :=
  repeat
    match goal with
    | H : bind _ _ _ = _ |- _ =>
        apply bind_inv in H;
        destruct H as [(? & ? & ? & ? & ? & H & ?) | (? & H & ?)];
        cbn beta in *
    | H : call _ _ _ = _ |- _ =>
        apply call_inv in H; destruct H as (? & ? & H)
    | H : log _ _ _ = _ |- _ =>
        apply log_inv in H; destruct H as (? & ? & ?)
    | H : ret _ _ = _ |- _ =>
        apply ret_inv in H; destruct H as (? & ? & ?)
    | H : raise _ _ = _ |- _ =>
        apply raise_inv in H; destruct H as (? & ? & ?)
    | H : try_except _ _ _ = _ |- _ =>
        apply try_except_inv in H;
        destruct H as [(? & H & ?) | (? & ? & ? & ? & ? & H & ?)];
        cbn beta in *
    | H : deref _ _ _ = _ |- _ =>
        apply deref_inv in H; destruct H as (? & ? & H)
    | H : (if ?b then _ else _) _ = _ |- _ => destruct b eqn:?
    | H : context [match ?o with Some _ => _ | None => _ end] |- _ =>
        is_var o; destruct o
    | H : context [match ?l with [] => _ | _ :: _ => _ end] |- _ =>
        is_var l; destruct l
    | H : exists _ : exn, _ = _ |- _ => destruct H as [? H]
    | H : @eq (result _) (Ret _) (Ret _) |- _ =>
        inversion H; clear H; subst
    | H : @eq (result _) (Raise _) (Raise _) |- _ =>
        inversion H; clear H; subst
    | H : @eq (result _) (Ret _) (Raise _) |- _ => discriminate H
    | H : @eq (result _) (Raise _) (Ret _) |- _ => discriminate H
    end.

Section Login.

Context {D : Driver}.

Variables username password : string.

(** [login] performs its calls in the order of lines 34-41 and stops at
    the first that fails: a run without an exception is the whole script;
    a run with one is a beginning of the script, up to the failing call,
    and then the one log record of the [except] clause that caught the
    exception. *)
Theorem login_follows_its_script (pg : page) (s : state) :
  match fst (fst (login username password pg s)) with
  | Ret _ =>
      snd (login username password pg s) = login_script username password pg
  | Raise e =>
      exists n,
        1 <= n <= 7
        /\ snd (login username password pg s)
           = (firstn n (login_script username password pg)
              ++ [EvLog ERROR (login_error_message e)])%list
  end.
Proof.
  destruct (login username password pg s) as [[r s'] t] eqn:H.
  cbn [fst snd]. unfold login in H.
  inv_run; subst; try reflexivity.
  all: unfold login_error_message;
    match goal with
    | E : is_TimeoutError _ = _ |- _ => rewrite E
    end.
  all: first
         [ exists 1; split; [lia | reflexivity]
         | exists 2; split; [lia | reflexivity]
         | exists 3; split; [lia | reflexivity]
         | exists 4; split; [lia | reflexivity]
         | exists 5; split; [lia | reflexivity]
         | exists 6; split; [lia | reflexivity]
         | exists 7; split; [lia | reflexivity] ].
Qed.

(** [navigate_to_appointment] returns only after it has gone to the
    address built from the number found in the continue link: the link's
    [href] was a string, the pattern was found in it, the number is a run
    of decimal digits, ASCII or not, and the run is the four calls of lines
    52-57 for that number.  When it raises, the run ends with the log record of line 59
    for the exception raised. *)
Theorem navigate_goes_to_the_parsed_number (pg : page) (s : state) :
  match fst (fst (navigate_to_appointment pg s)) with
  | Ret _ =>
      exists href g,
        fst (page_get_attribute pg SEL_CONTINUE "href" (drv s))
        = Ret (Some href)
        /\ Re.search href = Some g
        /\ g <> EmptyString /\ decimal_digits g
        /\ snd (navigate_to_appointment pg s) = navigate_script pg g
  | Raise e =>
      exists t0,
        snd (navigate_to_appointment pg s)
        = (t0 ++ [EvLog ERROR ("Error navigating to the appointment page: "
                               ++ exn_str e)])%list
  end.
Proof.
  destruct (navigate_to_appointment pg s) as [[r s'] t] eqn:H.
  cbn [fst snd].
  unfold navigate_to_appointment, search_appointment_number in H.
  inv_run; subst.
  1:{ match goal with
      | E : page_get_attribute _ _ _ _ = _ |- _ => rewrite E
      end.
      match goal with
      | E : match Re.search ?h with _ => _ end |- _ =>
          destruct (Re.search h) as [g |] eqn:Es
      end.
      2:{ match goal with E : exists _, _ |- _ => destruct E as [? E] end.
          discriminate. }
      match goal with E : Ret _ = Ret _ |- _ => inversion E; subst end.
      destruct (search_inv _ _ Es) as (? & ? & _ & Hm).
      destruct (match_here_sound _ _ Hm) as (Hne & Hd & _).
      eexists _, _. repeat split; try eassumption; try reflexivity. }
  all: cbn [app];
    match goal with
    | |- exists t0, ?l = _ => exists (removelast l)
    end;
    reflexivity.
Qed.

End Login.

(** ** More on the scanner *)

Section ScannerPaths.

Context {D : Driver}.

(** [select_date_and_time] answers [True] only at line 88: the
    date control was clicked, a date that is not empty was read and
    logged, and the last call of the run selected one time option; no other
    selection was made.  When it answers [False], either nothing was
    selected, or the one selection made is the failing last call of the
    run, reported by the log record of the [except] clause. *)
Theorem scanner_true_means_selected (pg : page) (s : state) :
  match fst (fst (select_date_and_time pg s)) with
  | Ret true =>
      exists t0 td v d,
        snd (select_date_and_time pg s)
        = (t0 ++ [EvElemSelectOption td v;
                  EvLog INFO ("Selected available time: " ++ str_opt v)])%list
        /\ selected_times (snd (select_date_and_time pg s)) = [v]
        /\ truthy d = true
        /\ In (EvClick pg SEL_DATE) t0
        /\ In (EvLog INFO ("Selected available date: " ++ str_opt d)) t0
  | Ret false =>
      selected_times (snd (select_date_and_time pg s)) = []
      \/ exists t0 td v e,
          snd (select_date_and_time pg s)
          = (t0 ++ [EvElemSelectOption td v;
                    EvLog ERROR ("Error selecting date and time: "
                                 ++ exn_str e)])%list
          /\ selected_times (snd (select_date_and_time pg s)) = [v]
  | Raise _ => False
  end.
Proof.
  destruct (select_date_and_time pg s) as [[r s'] t] eqn:H.
  cbn [fst snd]. unfold select_date_and_time, select_date_and_time_body in H.
  inv_run; subst; cbn [app].
  all: first
    [ left; reflexivity
    | right;
      match goal with
      | |- exists t0 _ _ _, ?l = _ /\ _ =>
          exists (removelast (removelast l))
      end;
      do 3 eexists; split; reflexivity
    | match goal with
      | |- exists t0 _ _ _, ?l = _ /\ _ =>
          exists (removelast (removelast l))
      end;
      do 3 eexists;
      split; [reflexivity |];
      split; [reflexivity |];
      split; [eassumption |];
      split; cbn [removelast In];
      repeat (first [ left; reflexivity | right ]) ].
Qed.

(** The time control is looked at only after a date was found: a run of
    [select_date_and_time] that queries the time control, lists its
    options or selects one has clicked the date control and logged a date
    that is not empty, however the run ends. *)
Theorem time_control_needs_a_date (pg : page) (s : state) :
  existsb time_control_event (snd (select_date_and_time pg s)) = true ->
  exists d,
    truthy d = true
    /\ In (EvClick pg SEL_DATE) (snd (select_date_and_time pg s))
    /\ In (EvLog INFO ("Selected available date: " ++ str_opt d))
         (snd (select_date_and_time pg s)).
Proof.
  destruct (select_date_and_time pg s) as [[r s'] t] eqn:H.
  cbn [fst snd]. intros Hex.
  unfold select_date_and_time, select_date_and_time_body in H.
  inv_run; subst; cbn [app] in *.
  all: first
    [ discriminate Hex
    | eexists; split; [eassumption |];
      split; cbn [In]; repeat (first [ left; reflexivity | right ]) ].
Qed.

End ScannerPaths.

(** ** More on the sweep *)

Section SweepPaths.

Context {D : Driver}.

Lemma select_pauses_app (a b : list event) :
  select_pauses (a ++ b) = select_pauses a + select_pauses b.
Proof.
  unfold select_pauses. rewrite filter_app, length_app. reflexivity.
Qed.

Lemma select_pauses_none (t : list event) :
  forallb (fun ev => negb (select_pause ev)) t = true -> select_pauses t = 0.
Proof.
  unfold select_pauses. induction t as [| ev t IH]; cbn [forallb filter].
  - reflexivity.
  - intros H. apply andb_true_iff in H. destruct H as [H1 H2].
    apply negb_true_iff in H1. rewrite H1. auto.
Qed.

Lemma scanner_never_pauses (pg : page) :
  safe (fun ev => negb (select_pause ev)) (select_date_and_time pg).
Proof.
  apply (safe_weaken scanner_event); [| apply select_date_and_time_events].
  intros ev. destruct ev; simpl; intros H; try reflexivity; discriminate.
Qed.

Lemma approach_never_pauses (pg : page) (o : elem) :
  safe (fun ev => negb (select_pause ev)) (approach pg o).
Proof. unfold approach. safe_auto. Qed.

Lemma attempt_never_pauses (pg : page) name button :
  safe (fun ev => negb (select_pause ev)) (attempt pg name button).
Proof.
  unfold attempt.
  repeat first [ apply scanner_never_pauses | safe_step ].
Qed.

(** A turn without a booking ends with its log record and one pause. *)
Lemma visit_none_pauses_once (pg : page) (o : elem) s s' t :
  visit pg o s = (Ret None, s', t) -> select_pauses t = 1.
Proof.
  unfold visit. intros H. apply bind_inv in H.
  destruct H as [([name button] & s1 & t1 & t2 & H1 & H2 & ->)
                | (e & _ & He)]; [| discriminate He].
  apply bind_inv in H2.
  destruct H2 as [(booked & s2 & t3 & t4 & H3 & H4 & ->) | (e & _ & He)];
    [| discriminate He].
  apply approach_never_pauses in H1. destruct H1 as [_ H1].
  apply attempt_never_pauses in H3. destruct H3 as [_ H3].
  rewrite !select_pauses_app, (select_pauses_none _ H1),
    (select_pauses_none _ H3).
  destruct booked.
  - apply ret_inv in H4. destruct H4 as (E & _). discriminate E.
  - unfold bind, log, sleep, ret in H4. cbn [prefix_events app] in H4.
    inversion H4; subst. reflexivity.
Qed.

Lemma sweep_none_pauses (pg : page) (options : list elem) :
  forall s s' t,
    sweep pg options s = (Ret None, s', t) ->
    select_pauses t = List.length options.
Proof.
  unfold sweep. induction options as [| o rest IH]; intros s s' t H.
  - apply ret_inv in H. destruct H as (_ & _ & ->). reflexivity.
  - cbn [for_each] in H. apply bind_inv in H.
    destruct H as [(a & s1 & t1 & t2 & H1 & H2 & ->) | (e & _ & He)];
      [| discriminate He].
    destruct a as [b |].
    + apply ret_inv in H2. destruct H2 as (E & _). discriminate E.
    + rewrite select_pauses_app, (visit_none_pauses_once _ _ _ _ _ H1),
        (IH _ _ _ H2). reflexivity.
Qed.

(** No exception leaves [check_and_reschedule]: in every state of every
    browser it answers with a boolean, leaves the session variables of the
    loop as they are, and performs neither a session call nor a pause of
    the retry interval. *)
Theorem check_and_reschedule_always_answers (pg : page) (s : state) :
  (exists b, fst (fst (check_and_reschedule pg s)) = Ret b)
  /\ vars (snd (fst (check_and_reschedule pg s))) = vars s
  /\ forallb page_event (snd (check_and_reschedule pg s)) = true.
Proof.
  destruct (check_and_reschedule pg s) as [[r s'] t] eqn:H. cbn [fst snd].
  destruct (check_page_events pg _ _ _ _ H) as [Hv Ht].
  split; [| auto].
  unfold check_and_reschedule in H. apply try_except_inv in H.
  destruct H as [(b & _ & ->) | (e & s1 & t1 & t2 & _ & Hh & _)].
  - eauto.
  - unfold bind, log, ret in Hh. cbn [prefix_events] in Hh.
    inversion Hh; subst. eauto.
Qed.

(** A sweep that comes to its end (it answers [False] after the log
    record of line 118) has processed every option of the selector, in
    the selector's order, has clicked no submit control, and has paused
    [SLEEP_AFTER_SELECT] seconds once for each option. *)
Theorem exhausted_sweep_visits_every_facility
  (pg : page) (s : state) (options : list elem) (d0 : dstate)
  (s' : state) (t0 : list event) :
  page_query_selector_all pg SEL_FACILITY_OPTIONS (drv s) = (Ret options, d0) ->
  check_and_reschedule pg s =
    (Ret false, s',
     (t0 ++ [EvLog INFO
               "Cycle completed. Restarting the check for each location."])%list) ->
  visited t0 = options
  /\ clicked t0 = []
  /\ select_pauses t0 = List.length options.
Proof.
  intros Hq H. unfold check_and_reschedule in H.
  apply try_except_inv in H.
  destruct H as [(v & H & Hv) | (e & s1 & t1 & t2 & _ & Hh & Ht)].
  2:{ exfalso. unfold bind, log, ret in Hh. cbn [prefix_events app] in Hh.
      inversion Hh; subst t2.
      apply app_inj_tail in Ht. destruct Ht as [_ Ht]. discriminate Ht. }
  apply bind_inv in H.
  destruct H as [(os & s2 & t3 & t4 & H1 & H2 & Ht) | (e & _ & He)];
    [| discriminate He].
  apply call_inv in H1. destruct H1 as (-> & _ & H1).
  rewrite Hq in H1. injection H1 as Hos _. subst os.
  apply bind_inv in H2.
  destruct H2 as [(rs & s3 & t5 & t6 & H3 & H4 & ->) | (e & _ & He)];
    [| discriminate He].
  destruct rs as [b |].
  - exfalso. apply ret_inv in H4. destruct H4 as (E & _).
    apply sweep_outcomes in H3. destruct H3 as (_ & -> & _).
    congruence.
  - unfold bind, log, ret in H4. cbn [prefix_events app] in H4.
    inversion H4; subst t6. clear H4.
    rewrite !app_assoc in Ht. apply app_inj_tail in Ht.
    destruct Ht as [-> _].
    pose proof (sweep_none_pauses _ _ _ _ _ H3) as Hp.
    apply sweep_outcomes in H3. destruct H3 as (_ & Hv' & Hc).
    rewrite visited_app, clicked_app, select_pauses_app, Hv', Hc, Hp.
    repeat split.
Qed.

Lemma scanner_true_tail (pg : page) s s' t :
  select_date_and_time pg s = (Ret true, s', t) ->
  exists t0 td v,
    t = (t0 ++ [EvElemSelectOption td v;
                EvLog INFO ("Selected available time: " ++ str_opt v)])%list.
Proof.
  intros H. unfold select_date_and_time, select_date_and_time_body in H.
  inv_run; subst; cbn [app].
  all: match goal with
       | |- exists t0 _ _, ?l = _ => exists (removelast (removelast l))
       end;
    do 2 eexists; reflexivity.
Qed.

Lemma attempt_true_tail (pg : page) name rb s s' t :
  attempt pg name rb s = (Ret true, s', t) ->
  exists t0 td v button, t = (t0 ++ booking_tail pg td v button name)%list.
Proof.
  unfold attempt. destruct rb as [b |].
  2:{ intros H. apply ret_inv in H. destruct H as (E & _). discriminate E. }
  intros H. apply bind_inv in H.
  destruct H as [(dis & s1 & t1 & t2 & H1 & H2 & ->) | (e & _ & He)];
    [| discriminate He].
  apply call_inv in H1. destruct H1 as (-> & _).
  destruct dis.
  { apply ret_inv in H2. destruct H2 as (E & _). discriminate E. }
  apply bind_inv in H2.
  destruct H2 as [(found & s2 & t3 & t4 & H3 & H4 & ->) | (e & _ & He)];
    [| discriminate He].
  destruct found.
  2:{ apply ret_inv in H4. destruct H4 as (E & _). discriminate E. }
  apply scanner_true_tail in H3. destruct H3 as (t0 & td & v & ->).
  unfold bind, call, log, ret in H4.
  destruct (page_on pg "dialog" handle_confirm (drv s2)) as [[u | e] d1];
    [| discriminate H4].
  cbn [prefix_events drv vars] in H4.
  destruct (elem_click b d1) as [[u' | e] d2]; [| discriminate H4].
  cbn [prefix_events app] in H4. inversion H4; subst. clear H4.
  exists ([EvIsDisabled b] ++ t0)%list, td, v, b.
  unfold booking_tail. rewrite <- !app_assoc. reflexivity.
Qed.

Lemma visit_true_tail (pg : page) (o : elem) b s s' t :
  visit pg o s = (Ret (Some b), s', t) ->
  exists t0 td v button name,
    t = (t0 ++ booking_tail pg td v button name)%list.
Proof.
  unfold visit. intros H. apply bind_inv in H.
  destruct H as [([name rb] & s1 & t1 & t2 & H1 & H2 & ->) | (e & _ & He)];
    [| discriminate He].
  apply bind_inv in H2.
  destruct H2 as [(booked & s2 & t3 & t4 & H3 & H4 & ->) | (e & _ & He)];
    [| discriminate He].
  destruct booked.
  - apply ret_inv in H4. destruct H4 as (_ & _ & ->).
    apply attempt_true_tail in H3.
    destruct H3 as (t0 & td & v & button & ->).
    exists (t1 ++ t0)%list, td, v, button, name.
    rewrite app_nil_r, app_assoc. reflexivity.
  - unfold bind, log, sleep, ret in H4. cbn [prefix_events] in H4.
    inversion H4.
Qed.

Lemma sweep_true_tail (pg : page) (options : list elem) :
  forall b s s' t,
    sweep pg options s = (Ret (Some b), s', t) ->
    exists t0 td v button name,
      t = (t0 ++ booking_tail pg td v button name)%list.
Proof.
  unfold sweep. induction options as [| o rest IH]; intros b s s' t H.
  - apply ret_inv in H. destruct H as (E & _). discriminate E.
  - cbn [for_each] in H. apply bind_inv in H.
    destruct H as [(a & s1 & t1 & t2 & H1 & H2 & ->) | (e & _ & He)];
      [| discriminate He].
    destruct a as [b' |].
    + apply ret_inv in H2. destruct H2 as (_ & _ & ->).
      apply visit_true_tail in H1.
      destruct H1 as (t0 & td & v & button & name & ->).
      exists t0, td, v, button, name. rewrite app_nil_r. reflexivity.
    + apply IH in H2. destruct H2 as (t0 & td & v & button & name & ->).
      exists (t1 ++ t0)%list, td, v, button, name.
      rewrite app_assoc. reflexivity.
Qed.

Lemma check_true_tail (pg : page) s s' t :
  check_and_reschedule pg s = (Ret true, s', t) ->
  exists t0 td v button name,
    t = (t0 ++ booking_tail pg td v button name)%list.
Proof.
  intros H. unfold check_and_reschedule in H.
  apply try_except_inv in H.
  destruct H as [(v & H & Hv) | (e & s1 & t1 & t2 & _ & Hh & _)].
  2:{ unfold bind, log, ret in Hh. cbn [prefix_events] in Hh.
      inversion Hh. }
  apply bind_inv in H.
  destruct H as [(os & s2 & t3 & t4 & _ & H2 & ->) | (e & _ & He)];
    [| discriminate He].
  apply bind_inv in H2.
  destruct H2 as [(rs & s3 & t5 & t6 & H3 & H4 & ->) | (e & _ & He)];
    [| discriminate He].
  destruct rs as [b |].
  - apply ret_inv in H4. destruct H4 as (_ & _ & ->).
    apply sweep_true_tail in H3.
    destruct H3 as (t0 & td & v' & button & name & ->).
    exists (t3 ++ t0)%list, td, v', button, name.
    rewrite app_nil_r, app_assoc. reflexivity.
  - unfold bind, log, ret in H4. cbn [prefix_events] in H4.
    inversion H4; subst. discriminate Hv.
Qed.

(** The submit control is clicked only on a slot just selected: a sweep
    that answers [True] ends with the selection of a time option, its log
    record, the registration of [handle_confirm], the click and the last
    log record, in this order and with nothing in between. *)
Theorem booking_follows_a_selection (pg : page) (s : state) :
  fst (fst (check_and_reschedule pg s)) = Ret true ->
  exists t0 td v button name,
    snd (check_and_reschedule pg s)
    = (t0 ++ booking_tail pg td v button name)%list.
Proof.
  destruct (check_and_reschedule pg s) as [[r s'] t] eqn:H. cbn [fst snd].
  intros ->. exact (check_true_tail _ _ _ _ H).
Qed.

(** The events of [approach] when it returns. *)
Lemma approach_Ret_events (pg : page) (o : elem) s name rb s1 t1 :
  approach pg o s = (Ret (name, rb), s1, t1) ->
  exists v,
    t1 = [EvInnerText o; EvElemGetAttribute o "value";
          EvSelectOption pg SEL_FACILITY v;
          EvLog INFO ("Checking location: " ++ name);
          EvWaitForSelector pg SEL_SUBMIT PAGE_TIMEOUT;
          EvQuerySelector pg SEL_SUBMIT].
Proof.
  intros H. unfold approach in H. inv_run. subst.
  eexists. cbn [app]. reflexivity.
Qed.

(** A facility whose submit control is missing or disabled is passed
    over: the turn gives no booking and ends with the log record of line
    115 and the pause; the date control is not clicked, the time control
    is not touched and no submit control is clicked. *)
Theorem closed_facility_is_skipped
  (pg : page) (o : elem) (s : state) (name : string) (rb : option elem)
  (s1 : state) (t1 : list event) :
  approach pg o s = (Ret (name, rb), s1, t1) ->
  (rb = None
   \/ exists button,
        rb = Some button
        /\ fst (elem_is_disabled button (drv s1)) = Ret true) ->
  fst (fst (visit pg o s)) = Ret None
  /\ (exists t0, snd (visit pg o s) = (t0 ++ no_slot_tail name)%list)
  /\ ~ In (EvClick pg SEL_DATE) (snd (visit pg o s))
  /\ existsb time_control_event (snd (visit pg o s)) = false
  /\ clicked (snd (visit pg o s)) = [].
Proof.
  intros Ha Hrb.
  destruct (approach_Ret_events _ _ _ _ _ _ _ Ha) as [v Ht1].
  assert (Hv : exists s2 mid,
             visit pg o s = (Ret None, s2, (t1 ++ mid ++ no_slot_tail name)%list)
             /\ (mid = [] \/ exists button, mid = [EvIsDisabled button])).
  { destruct Hrb as [-> | (button & -> & Hd)].
    - exists s1, []. split; [| now left]. unfold visit.
      rewrite (bind_Ret _ _ _ _ _ _ Ha). cbn beta iota.
      unfold attempt, bind, log, sleep, ret. cbn [prefix_events app].
      reflexivity.
    - destruct (elem_is_disabled button (drv s1)) as [r d] eqn:Hd'.
      cbn [fst] in Hd. subst r.
      exists {| drv := d; vars := vars s1 |}, [EvIsDisabled button].
      split; [| right; now exists button]. unfold visit.
      rewrite (bind_Ret _ _ _ _ _ _ Ha). cbn beta iota.
      unfold attempt.
      erewrite bind_Ret.
      2:{ rewrite (bind_Ret _ _ _ _ _ _ (call_run _ _ _ _ _ Hd')).
          cbn iota. reflexivity. }
      unfold bind, log, sleep, ret. cbn [prefix_events app]. reflexivity. }
  destruct Hv as (s2 & mid & Hv & Hmid). rewrite Hv. cbn [fst snd].
  split; [reflexivity |]. split.
  { exists (t1 ++ mid)%list. now rewrite app_assoc. }
  subst t1.
  destruct Hmid as [-> | (button & ->)]; unfold no_slot_tail; cbn [app].
  all: split; [| split; [| reflexivity]].
  all: try (cbn [In]; intros Hin;
            repeat (destruct Hin as [Hin | Hin]; [discriminate Hin |]);
            exact Hin).
  all: reflexivity.
Qed.

End SweepPaths.

(** ** More on the retry loop *)

Section LoopPaths.

Context {D : Driver}.

Variables username password : string.

Lemma launches_app (a b : list event) :
  launches (a ++ b) = launches a + launches b.
Proof. unfold launches. rewrite filter_app, length_app. reflexivity. Qed.

Lemma launches_page (t : list event) :
  forallb page_event t = true -> launches t = 0.
Proof.
  unfold launches. induction t as [| ev t IH]; cbn [forallb filter].
  - reflexivity.
  - intros H. apply andb_true_iff in H. destruct H as [H1 H2].
    destruct ev; try discriminate H1; auto.
Qed.

(** What line 129 performs, by the call that fails. *)
Lemma launch_shape (p : playwright) s r s1 t1 :
  launch_browser_in_incognito p s = (r, s1, t1) ->
  match r with
  | Ret (b, c, pg) =>
      t1 = [EvLaunch p HEADLESS_MODE; EvNewContext b; EvNewPage c]
  | Raise _ =>
      t1 = [EvLaunch p HEADLESS_MODE]
      \/ (exists b, t1 = [EvLaunch p HEADLESS_MODE; EvNewContext b])
      \/ (exists b c,
             t1 = [EvLaunch p HEADLESS_MODE; EvNewContext b; EvNewPage c])
  end.
Proof.
  unfold launch_browser_in_incognito. intros H.
  inv_run; subst; cbn [app]; eauto.
Qed.

(** The [finally] clause launches nothing, whatever its own outcome. *)
Lemma finally_launches_nothing (s : state) :
  launches (snd (finally_clause s)) = 0.
Proof.
  unfold finally_clause, bind, get_locals. cbn [prefix_events].
  destruct (l_context (vars s)) as [c |];
    destruct (l_browser (vars s)) as [b |]; unfold call, sleep, ret;
    repeat match goal with
           | |- context [context_close ?c ?d] =>
               destruct (context_close c d) as [[[] | ?] ?]
           | |- context [browser_close ?b ?d] =>
               destruct (browser_close b d) as [[[] | ?] ?]
           end;
    reflexivity.
Qed.

(** Every cycle launches the browser exactly once, whatever its outcome:
    a run of [N] cycles holds [N] launches, one new browser for each
    cycle. *)
Theorem one_launch_per_cycle (p : playwright) (N : nat) (s : state) :
  launches (snd (cycle username password p s)) = 1
  /\ launches (cycles_events username password N p s) = N.
Proof.
  assert (H1 : forall s0, launches (snd (cycle username password p s0)) = 1).
  { intros s0. unfold cycle, try_finally.
    destruct (launch_browser_in_incognito p s0)
      as [[[[[b c] pg] | e] s1] t1] eqn:El;
      pose proof (launch_shape _ _ _ _ _ El) as Hs; cbn iota in Hs.
    - rewrite (try_part_with_session _ _ _ _ _ _ _ _ _ El).
      destruct (try_except (login_and_reschedule username password pg)
                  except_clauses _) as [[r2 s2] t2] eqn:E.
      destruct (guarded_session _ _ _ _ _ _ _ E) as (_ & _ & Hp).
      cbn [prefix_events].
      pose proof (finally_launches_nothing s2) as Hf.
      destruct (finally_clause s2) as [[[u | e] s3] t3]; cbn [snd] in *;
        rewrite !launches_app, (launches_page _ Hp), Hf; subst t1;
        reflexivity.
    - rewrite (try_part_without_session _ _ _ _ _ _ _ El).
      pose proof (finally_launches_nothing s1) as Hf.
      destruct (finally_clause s1) as [[[u | e'] s3] t3]; cbn [snd] in *;
        rewrite !launches_app, Hf;
        destruct Hs as [-> | [(b & ->) | (b & c & ->)]]; reflexivity. }
  split; [apply H1 |].
  revert s. induction N as [| n IH]; intros s; [reflexivity |].
  cbn [cycles_events]. rewrite launches_app, H1, IH. reflexivity.
Qed.

(** A sign-in that fails, by a timeout or otherwise, costs the cycle and
    no more: nothing of the navigation or of the sweep is run, the
    exception is logged, the session is closed, and after the pause the
    loop takes its next turn. *)
Theorem sign_in_failure_retries
  (p : playwright) (s : state) (b : browser) (c : context) (pg : page)
  (s1 s2 : state) (t1 t2 : list event) (e : exn) (d3 d4 : dstate) :
  launch_browser_in_incognito p s = (Ret (b, c, pg), s1, t1) ->
  login username password pg
    {| drv := drv s1; vars := session_locals b c pg |} = (Raise e, s2, t2) ->
  context_close c (drv s2) = (Ret tt, d3) ->
  browser_close b d3 = (Ret tt, d4) ->
  forall k,
    while_true (S k) (cycle username password p) s =
      prefix_events
        (t1 ++ t2
         ++ [EvLog ERROR (retry_message e); EvContextClose c;
             EvBrowserClose b; EvSleep RETRY_INTERVAL])%list
        (while_true k (cycle username password p)
           {| drv := d4; vars := session_locals b c pg |}).
Proof.
  intros Hl Hlog Hc1 Hc2 k. apply while_true_Next.
  assert (E : try_except (login_and_reschedule username password pg)
                except_clauses
                {| drv := drv s1; vars := session_locals b c pg |}
              = (Ret Next, s2,
                 (t2 ++ [EvLog ERROR (retry_message e)])%list)).
  { erewrite try_except_Raise.
    2:{ unfold login_and_reschedule.
        rewrite (bind_Raise _ _ _ _ _ _ Hlog). reflexivity. }
    rewrite except_clauses_run. reflexivity. }
  destruct (cycle_with_session _ _ _ _ _ _ _ _ _ _ _ _ _ _ Hl E Hc1 Hc2)
    as (Hcy & _).
  rewrite Hcy. rewrite <- !app_assoc. reflexivity.
Qed.

(** When line 129 raises in a cycle that has no session variable bound
    (the first cycle, or any cycle before the first launch that worked),
    the [finally] clause closes nothing: what [chromium.launch] or
    [new_context] had already returned inside the helper is never closed.
    The cycle logs, pauses and lets the loop go on. *)
Theorem failed_launch_closes_nothing
  (p : playwright) (s : state) (e : exn) (s1 : state) (t1 : list event) :
  launch_browser_in_incognito p s = (Raise e, s1, t1) ->
  vars s = no_locals ->
  cycle username password p s =
    (Ret Next, s1,
     (t1 ++ [EvLog ERROR (retry_message e);
             EvSleep RETRY_INTERVAL])%list)
  /\ close_calls (snd (cycle username password p s)) = 0
  /\ (t1 = [EvLaunch p HEADLESS_MODE]
      \/ (exists b, t1 = [EvLaunch p HEADLESS_MODE; EvNewContext b])
      \/ (exists b c,
             t1 = [EvLaunch p HEADLESS_MODE; EvNewContext b; EvNewPage c])).
Proof.
  intros Hl Hn.
  pose proof (cycle_without_any_session username password p s e s1 t1 Hl Hn)
    as Hc.
  pose proof (launch_shape _ _ _ _ _ Hl) as Hs. cbn iota in Hs.
  split; [exact Hc |]. split; [| exact Hs].
  rewrite Hc. cbn [snd].
  destruct Hs as [-> | [(b & ->) | (b & c & ->)]]; reflexivity.
Qed.

(** The loop is not protected against its own [finally] clause: when
    [context.close()] raises there, [browser.close()] and the pause are
    skipped, the exception leaves the cycle and the loop, and no further
    cycle is run. *)
Theorem failing_close_ends_the_loop
  (p : playwright) (s : state) (b : browser) (c : context) (pg : page)
  (s1 : state) (t1 : list event) (e : exn) (d3 : dstate) :
  launch_browser_in_incognito p s = (Ret (b, c, pg), s1, t1) ->
  context_close c
    (drv (snd (fst (try_except (try_suite username password p)
                      except_clauses s)))) = (Raise e, d3) ->
  forall k,
    exists mid,
      while_true (S k) (cycle username password p) s =
        (Raise e, {| drv := d3; vars := session_locals b c pg |},
         ([EvLaunch p HEADLESS_MODE; EvNewContext b; EvNewPage c] ++ mid
          ++ [EvContextClose c])%list)
      /\ forallb page_event mid = true.
Proof.
  intros Hl Hc k.
  rewrite (try_part_with_session _ _ _ _ _ _ _ _ _ Hl) in Hc.
  destruct (try_except (login_and_reschedule username password pg)
              except_clauses
              {| drv := drv s1; vars := session_locals b c pg |})
    as [[r2 s2] t2] eqn:E.
  cbn [prefix_events snd fst] in Hc.
  destruct (guarded_session _ _ _ _ _ _ _ E) as (_ & Hv & Hp).
  cbn [vars] in Hv.
  pose proof (launch_shape _ _ _ _ _ Hl) as Hs. cbn iota in Hs. subst t1.
  exists t2. split; [| exact Hp].
  cbn [while_true]. apply bind_Raise.
  unfold cycle, try_finally.
  rewrite (try_part_with_session _ _ _ _ _ _ _ _ _ Hl), E.
  cbn [prefix_events].
  unfold finally_clause, bind, get_locals. cbn [prefix_events].
  rewrite Hv. cbn [l_context session_locals].
  rewrite (call_run _ _ _ _ _ Hc). rewrite Hv.
  cbn [prefix_events]. rewrite <- !app_assoc. reflexivity.
Qed.

Lemma finally_Ret_inv (s : state) b c pg u s' t :
  vars s = session_locals b c pg ->
  finally_clause s = (Ret u, s', t) ->
  t = [EvContextClose c; EvBrowserClose b; EvSleep RETRY_INTERVAL].
Proof.
  intros Hv. unfold finally_clause, bind, get_locals. cbn [prefix_events].
  rewrite Hv. cbn [l_context l_browser session_locals].
  unfold call, sleep, ret.
  destruct (context_close c (drv s)) as [[[] | e] d1];
    cbn [prefix_events drv]; [| discriminate].
  destruct (browser_close b d1) as [[[] | e] d2];
    cbn [prefix_events]; [| discriminate].
  intros H. inversion H. reflexivity.
Qed.

(** A cycle asks for the [break] only after a click on a submit control,
    and then ends with the log record of line 135 and the [finally]
    clause. *)
Lemma cycle_Break_inv (p : playwright) s s' t :
  cycle username password p s = (Ret Break, s', t) ->
  exists t0 b c button,
    t = (t0 ++ [EvLog INFO "Appointment successfully rescheduled. Exiting.";
                EvContextClose c; EvBrowserClose b;
                EvSleep RETRY_INTERVAL])%list
    /\ In (EvElemClick button) t0.
Proof.
  unfold cycle, try_finally.
  destruct (launch_browser_in_incognito p s)
    as [[[[[b c] pg] | e] s1] t1] eqn:El.
  2:{ rewrite (try_part_without_session _ _ _ _ _ _ _ El).
      destruct (finally_clause s1) as [[[u | e'] s3] t3]; discriminate. }
  rewrite (try_part_with_session _ _ _ _ _ _ _ _ _ El).
  destruct (try_except (login_and_reschedule username password pg)
              except_clauses _) as [[r2 s2] t2] eqn:E.
  destruct (guarded_session _ _ _ _ _ _ _ E) as (_ & Hv & _).
  cbn [vars] in Hv. cbn [prefix_events].
  destruct (finally_clause s2) as [[[u | e'] s3] t3] eqn:F;
    [| discriminate].
  intros H. inversion H; subst. clear H.
  rewrite (finally_Ret_inv _ _ _ _ _ _ _ Hv F).
  apply try_except_inv in E.
  destruct E as [(sig & E & Hs) | (e & s4 & t4 & t5 & _ & Hh & _)].
  2:{ rewrite except_clauses_run in Hh. inversion Hh. }
  unfold login_and_reschedule in E.
  apply bind_inv in E.
  destruct E as [(u1 & s5 & tl & t6 & _ & E & ->) | (e & _ & He)];
    [| discriminate He].
  apply bind_inv in E.
  destruct E as [(u2 & s6 & tn & t7 & _ & E & ->) | (e & _ & He)];
    [| discriminate He].
  apply bind_inv in E.
  destruct E as [(booked & s7 & tc & t8 & Hc & E & ->) | (e & _ & He)];
    [| discriminate He].
  destruct booked.
  2:{ apply ret_inv in E. destruct E as (E & _). congruence. }
  unfold bind, log, ret in E. cbn [prefix_events app] in E.
  inversion E; subst. clear E.
  apply check_true_tail in Hc.
  destruct Hc as (t0 & td & v & button & name & ->).
  exists (t1 ++ tl ++ tn ++ t0 ++ booking_tail pg td v button name)%list,
    b, c, button.
  split.
  - rewrite <- !app_assoc. reflexivity.
  - rewrite !in_app_iff. do 4 right. unfold booking_tail. cbn [In]. auto 6.
Qed.

(** The loop is left in the ordinary way only through a booking: a run
    of [while True] that ends without an exception has clicked a submit
    control and ends with the log record of line 135, the two [close]
    calls and the pause. *)
Theorem loop_returns_only_after_a_booking
  (p : playwright) (n : nat) (s s' : state) (t : list event) :
  while_true n (cycle username password p) s = (Ret (Some tt), s', t) ->
  exists t0 b c button,
    t = (t0 ++ [EvLog INFO "Appointment successfully rescheduled. Exiting.";
                EvContextClose c; EvBrowserClose b;
                EvSleep RETRY_INTERVAL])%list
    /\ In (EvElemClick button) t0.
Proof.
  revert s t. induction n as [| n IH]; intros s t H.
  - apply ret_inv in H. destruct H as (E & _). discriminate E.
  - cbn [while_true] in H. apply bind_inv in H.
    destruct H as [(sig & s1 & t1 & t2 & H1 & H2 & ->) | (e & _ & He)];
      [| discriminate He].
    destruct sig.
    + apply ret_inv in H2. destruct H2 as (_ & _ & ->).
      rewrite app_nil_r. exact (cycle_Break_inv _ _ _ _ H1).
    + apply IH in H2. destruct H2 as (t0 & b & c & button & -> & Hin).
      exists (t1 ++ t0)%list, b, c, button. split.
      * rewrite app_assoc. reflexivity.
      * apply in_or_app. right. exact Hin.
Qed.

End LoopPaths.

(** ** The configuration *)

Section Startup.

Variable json_load : string -> string + Config.json.
Variable files : string -> option string.

(** The five lines that read the configuration give a pair of
    credentials exactly when the file named by [CONFIG_PATH] (or, without
    that variable, the default path) can be opened, its text decodes to a
    JSON object, and that object has both keys; the pair is then what the
    object holds under [username] and [password].  In every other case
    they fail. *)
Theorem load_succeeds_exactly_when
  (env : Config.environ) (username password : Config.json) :
  Config.load json_load files env = inr (username, password)
  <-> exists text members,
        files (Config.getenv env "CONFIG_PATH" Config.DEFAULT_PATH)
        = Some text
        /\ json_load text = inr (Config.JObject members)
        /\ Config.lookup "username" members = Some username
        /\ Config.lookup "password" members = Some password.
Proof.
  unfold Config.load. split.
  - destruct (files _) as [text |]; [| discriminate].
    destruct (json_load text) as [msg | config] eqn:Ej; [discriminate |].
    destruct config as [| b | n | str | items | members];
      try discriminate.
    cbn [Config.subscript].
    destruct (Config.lookup "username" members) as [u |] eqn:Eu;
      [| discriminate].
    destruct (Config.lookup "password" members) as [p |] eqn:Ep;
      [| discriminate].
    intros H. inversion H; subst.
    exists text, members. auto.
  - intros (text & members & Hf & Hj & Hu & Hp).
    rewrite Hf, Hj. cbn [Config.subscript]. rewrite Hu, Hp. reflexivity.
Qed.

End Startup.
(** ** Runs on the scripted site *)

Import Site Samples.

Lemma busy_indicator_short_circuit_witness :
  select_date_and_time (D := driver) 0 (on_facility three_facilities calgary) =
    (Ret false, on_facility three_facilities calgary,
     [EvQuerySelector 0 SEL_BUSY; EvIsVisible BusyIndicator;
      EvLog WARNING "System is busy. No date or time available."])
  /\ forallb (fun ev => negb (date_time_event ev))
       (snd (select_date_and_time (D := driver) 0 (on_facility three_facilities calgary)))
     = true.
Proof.
  apply (busy_indicator_short_circuit (D := driver) 0
           (on_facility three_facilities calgary) BusyIndicator
           (drv (on_facility three_facilities calgary))
           (drv (on_facility three_facilities calgary)));
    reflexivity.
Defined.

(** A missing date input makes the click of line 70 time out; the scanner
    turns that into [False]. *)
Lemma select_date_and_time_never_raises_witness :
  select_date_and_time (D := driver) 0 (on_facility vancouver_first vancouver) =
    (Ret false, on_facility vancouver_first vancouver,
     [EvQuerySelector 0 SEL_BUSY; EvIsVisible BusyIndicator;
      EvClick 0 SEL_DATE;
      EvLog ERROR "Error selecting date and time: Timeout 30000ms exceeded."]).
Proof.
  apply (proj2 (select_date_and_time_never_raises (D := driver) 0
                  (on_facility vancouver_first vancouver))
           (timeout_exceeded 30000)
           (on_facility vancouver_first vancouver)
           [EvQuerySelector (D := driver) 0 SEL_BUSY;
            EvIsVisible (D := driver) BusyIndicator;
            EvClick (D := driver) 0 SEL_DATE]).
  reflexivity.
Defined.

Lemma find_filter {A} (p : A -> bool) (l : list A) (x : A) :
  find p l = Some x -> exists rest, filter p l = x :: rest.
Proof.
  induction l as [| a l IH]; simpl; [discriminate |].
  destruct (p a) eqn:E.
  - intros H. inversion H; subst. eauto.
  - exact IH.
Qed.

(** C5.  On a form whose time control offers the options [fac_times f], in
    document order, the scanner selects exactly one value: the first one
    that is present and not empty.  Only the order decides; the values are
    never compared with each other. *)
Theorem first_fit_time
  (v : Visit) (f : Facility) (pg : nat) (first : option string) :
  fac_busy f <> IndicatorVisible ->
  fac_date_input f = true ->
  truthy (fac_date f) = true ->
  find truthy (fac_times f) = Some first ->
  fst (fst (select_date_and_time (D := driver) pg (on_facility v f))) = Ret true
  /\ selected_times (snd (select_date_and_time (D := driver) pg (on_facility v f)))
     = [first].
Proof.
  destruct f as [label value submit busy input date times]. simpl.
  intros Hbusy -> Hdate Hfind.
  destruct (find_filter _ _ _ Hfind) as [rest Hrest].
  unfold select_date_and_time, try_except, select_date_and_time_body,
    on_facility.
  destruct busy; [| | contradiction];
    cbn -[truthy filter]; rewrite Hdate; cbn -[truthy filter];
    unfold matching_time_options; rewrite Hrest; cbn; split; reflexivity.
Qed.

Lemma first_fit_time_witness :
  fst (fst (select_date_and_time (D := driver) 0 (on_facility three_facilities ottawa)))
  = Ret true
  /\ selected_times
       (snd (select_date_and_time (D := driver) 0 (on_facility three_facilities ottawa)))
     = [Some "09:00"].
Proof.
  apply (first_fit_time three_facilities ottawa 0 (Some "09:00"));
    [discriminate | reflexivity | reflexivity | reflexivity].
Defined.

(** The option offered first is taken, also when a later one is earlier
    in the day. *)
Example first_fit_keeps_document_order :
  selected_times
    (snd (select_date_and_time (D := driver) 0
            (on_facility three_facilities winnipeg)))
  = [Some "10:30"].
Proof. reflexivity. Qed.


(** The same run, read off: Calgary then Ottawa are visited, the one click
    is on the submit control, Toronto is never looked at. *)
Example sweep_three_facilities :
  let run := check_and_reschedule (D := driver) 0 (on_form three_facilities) in
  fst (fst run) = Ret true
  /\ visited (snd run) = [FacilityOption calgary; FacilityOption ottawa]
  /\ clicked (snd run) = [SubmitButton]
  /\ selected_times (snd run) = [Some "09:00"].
Proof. cbv zeta. repeat split; reflexivity. Qed.

(** C3 as the spec words it fails: Halifax has no submit control, so the
    wait of line 102 times out while Halifax is processed.  The sweep does
    not go on to Ottawa, the next option, although Ottawa alone would have
    been booked: it answers [False] at once. *)
Lemma sweep_stops_at_failing_location :
  fst (fst (visit (D := driver) 0 (FacilityOption halifax)
              (on_form halifax_first)))
  = Raise (timeout_exceeded PAGE_TIMEOUT)
  /\ check_and_reschedule (D := driver) 0 (on_form halifax_first) =
       (Ret false, on_facility halifax_first halifax,
        [EvQuerySelectorAll 0 SEL_FACILITY_OPTIONS;
         EvInnerText (FacilityOption halifax);
         EvElemGetAttribute (FacilityOption halifax) "value";
         EvSelectOption 0 SEL_FACILITY (Some "90");
         EvLog INFO "Checking location: Halifax";
         EvWaitForSelector 0 SEL_SUBMIT PAGE_TIMEOUT;
         EvLog ERROR
           "Error during location check and reschedule: Timeout 15000ms exceeded."])
  /\ ~ In (FacilityOption ottawa)
         (visited (snd (check_and_reschedule (D := driver) 0
                          (on_form halifax_first))))
  /\ fst (fst (check_and_reschedule (D := driver) 0 (on_form ottawa_only)))
     = Ret true.
Proof.
  split; [reflexivity |]. split; [reflexivity |]. split; [| reflexivity].
  intros [H | []]. discriminate H.
Qed.

(** Both halves of the handling of exceptions, on the site: the missing
    date input of Vancouver is absorbed by the scanner and the sweep goes
    on to Ottawa; the missing submit control of Halifax ends the sweep. *)
Lemma sweep_exception_scope_witness :
  sweep (D := driver) 0 [FacilityOption vancouver; FacilityOption ottawa]
    (on_form vancouver_first) =
    prefix_events
      (snd (approach (D := driver) 0 (FacilityOption vancouver)
              (on_form vancouver_first))
       ++ [EvIsDisabled SubmitButton]
       ++ [EvQuerySelector 0 SEL_BUSY; EvIsVisible BusyIndicator;
           EvClick 0 SEL_DATE]
       ++ [EvLog ERROR
             ("Error selecting date and time: "
              ++ exn_str (timeout_exceeded 30000));
           EvLog INFO ("No available appointments at " ++ "Vancouver" ++ ".");
           EvSleep SLEEP_AFTER_SELECT])%list
      (sweep (D := driver) 0 [FacilityOption ottawa]
         (on_facility vancouver_first vancouver))
  /\ visited (snd (check_and_reschedule (D := driver) 0
                     (on_form halifax_first)))
     = [FacilityOption halifax].
Proof.
  split.
  - apply (proj1 (sweep_exception_scope (D := driver) 0)
             (FacilityOption vancouver) [FacilityOption ottawa]
             (on_form vancouver_first) "Vancouver" SubmitButton
             (on_facility vancouver_first vancouver)
             (snd (approach (D := driver) 0 (FacilityOption vancouver)
                     (on_form vancouver_first)))
             (drv (on_facility vancouver_first vancouver))
             (timeout_exceeded 30000)
             (on_facility vancouver_first vancouver)
             [EvQuerySelector (D := driver) 0 SEL_BUSY;
              EvIsVisible (D := driver) BusyIndicator;
              EvClick (D := driver) 0 SEL_DATE]);
      reflexivity.
  - apply (proj2 (sweep_exception_scope (D := driver) 0)
             (on_form halifax_first) [] (FacilityOption halifax)
             [FacilityOption ottawa] (drv (on_form halifax_first))
             (on_form halifax_first) []
             (timeout_exceeded PAGE_TIMEOUT)
             (on_facility halifax_first halifax)
             (snd (visit (D := driver) 0 (FacilityOption halifax)
                     (on_form halifax_first))));
      reflexivity.
Defined.

(** A cycle that finds nothing closes its session once; the next launch
    fails and the same session is closed again, without harm. *)
Lemma session_released_once_witness :
  (exists sig mid,
      cycle (D := driver) user secret tt unlucky =
        (Ret sig,
         {| drv := drv (after_cycle (D := driver) user secret tt unlucky);
            vars := session_locals 0 0 0 |},
         ([EvLaunch tt HEADLESS_MODE; EvNewContext 0; EvNewPage 0] ++ mid
          ++ [EvContextClose 0; EvBrowserClose 0;
              EvSleep RETRY_INTERVAL])%list)
      /\ forallb page_event mid = true)
  /\ cycle (D := driver) user secret tt
       {| drv := drv (after_cycle (D := driver) user secret tt unlucky);
          vars := session_locals 0 0 0 |} =
       (Ret Next,
        {| drv := drv (state_after (D := driver) user secret 2 tt unlucky);
           vars := session_locals 0 0 0 |},
        [EvLaunch tt HEADLESS_MODE;
         EvLog ERROR (retry_message
                        (PlaywrightError "Browser closed unexpectedly"));
         EvContextClose 0; EvBrowserClose 0; EvSleep RETRY_INTERVAL]).
Proof.
  destruct (session_released_once (D := driver) user secret tt unlucky 0 0 0
              (snd (fst (launch_browser_in_incognito (D := driver) tt
                           unlucky)))
              [EvLaunch (D := driver) tt HEADLESS_MODE;
               EvNewContext (D := driver) 0; EvNewPage (D := driver) 0]
              (drv (snd (fst (try_except
                                (try_suite (D := driver) user secret tt)
                                except_clauses unlucky))))
              (drv (after_cycle (D := driver) user secret tt unlucky))
              eq_refl eq_refl eq_refl) as [H1 H2].
  split; [exact H1 |].
  apply (H2 (PlaywrightError "Browser closed unexpectedly")
            (state_after (D := driver) user secret 2 tt unlucky)
            [EvLaunch (D := driver) tt HEADLESS_MODE]
            (drv (state_after (D := driver) user secret 2 tt unlucky))
            (drv (state_after (D := driver) user secret 2 tt unlucky)));
    reflexivity.
Defined.

(** With a booking in the first cycle, six turns of fuel do what one
    does. *)
Lemma booking_ends_the_loop_witness :
  fst (fst (while_true 6 (cycle (D := driver) user secret tt) lucky))
  = Ret (Some tt)
  /\ while_true 6 (cycle (D := driver) user secret tt) lucky
     = while_true 1 (cycle (D := driver) user secret tt) lucky.
Proof.
  pose proof
    (booking_ends_the_loop (D := driver) user secret tt lucky 0 0 0
       {| drv := drv (on_form three_facilities); vars := no_locals |}
       (on_form three_facilities) (on_form three_facilities)
       (on_facility three_facilities ottawa)
       [EvLaunch (D := driver) tt HEADLESS_MODE;
        EvNewContext (D := driver) 0; EvNewPage (D := driver) 0]
       (snd (login (D := driver) user secret 0 (on_form three_facilities)))
       (snd (navigate_to_appointment (D := driver) 0
               (on_form three_facilities)))
       (snd (check_and_reschedule (D := driver) 0
               (on_form three_facilities)))
       (drv (on_facility three_facilities ottawa))
       (snd (close_browser 0 (drv (on_facility three_facilities ottawa))))
       eq_refl eq_refl eq_refl eq_refl eq_refl eq_refl) as H.
  rewrite (H 5), (H 0). split; reflexivity.
Defined.

(** The whole function on a run that books at once: the pause of sixty
    seconds is taken after the session is closed and before Playwright is
    left. *)
Lemma teardown_and_sleep_after_booking_witness :
  exists t,
    login_and_schedule (D := driver) user secret 3 lucky =
      (Ret (Some tt),
       {| drv := snd (close_browser 0
                        (drv (on_facility three_facilities ottawa)));
          vars := session_locals (D := driver) 0 0 0 |},
       (t ++ [EvLog INFO "Appointment successfully rescheduled. Exiting.";
              EvContextClose 0; EvBrowserClose 0; EvSleep 60;
              EvExit tt])%list).
Proof.
  pose proof
    (teardown_and_sleep_after_booking (D := driver) user secret
       lucky tt (drv lucky) 0 0 0
       {| drv := drv (on_form three_facilities); vars := no_locals |}
       (on_form three_facilities) (on_form three_facilities)
       (on_facility three_facilities ottawa)
       [EvLaunch (D := driver) tt HEADLESS_MODE;
        EvNewContext (D := driver) 0; EvNewPage (D := driver) 0]
       (snd (login (D := driver) user secret 0 (on_form three_facilities)))
       (snd (navigate_to_appointment (D := driver) 0
               (on_form three_facilities)))
       (snd (check_and_reschedule (D := driver) 0
               (on_form three_facilities)))
       (drv (on_facility three_facilities ottawa))
       (snd (close_browser 0 (drv (on_facility three_facilities ottawa))))
       (snd (close_browser 0 (drv (on_facility three_facilities ottawa))))
       eq_refl eq_refl eq_refl eq_refl eq_refl eq_refl eq_refl eq_refl 2)
    as H.
  eexists. rewrite H. rewrite !app_assoc. reflexivity.
Defined.

(** A continue link that leads elsewhere: the first cycle ends at line 53
    and the loop starts over. *)
Lemma navigation_failure_retries_witness :
  exists e,
    fst (fst (navigate_to_appointment (D := driver) 0
                {| drv := drv (snd (fst (launch_browser_in_incognito
                                           (D := driver) tt lost)));
                   vars := session_locals (D := driver) 0 0 0 |}))
    = Raise e
    /\ while_true 2 (cycle (D := driver) user secret tt) lost =
         prefix_events
           ([EvLaunch tt HEADLESS_MODE; EvNewContext 0; EvNewPage 0]
            ++ snd (login (D := driver) user secret 0
                      (on_form unparsable_link))
            ++ [EvGetAttribute 0 SEL_CONTINUE "href";
                EvLog ERROR ("Error navigating to the appointment page: "
                             ++ exn_str e);
                EvLog ERROR (retry_message e);
                EvContextClose 0; EvBrowserClose 0;
                EvSleep RETRY_INTERVAL])%list
           (while_true 1 (cycle (D := driver) user secret tt)
              (after_cycle (D := driver) user secret tt lost)).
Proof.
  destruct
    (navigation_failure_retries (D := driver) user secret tt lost 0 0 0
       (snd (fst (launch_browser_in_incognito (D := driver) tt lost)))
       {| drv := drv (snd (fst (launch_browser_in_incognito
                                  (D := driver) tt lost)));
          vars := session_locals (D := driver) 0 0 0 |}
       [EvLaunch (D := driver) tt HEADLESS_MODE;
        EvNewContext (D := driver) 0; EvNewPage (D := driver) 0]
       (snd (login (D := driver) user secret 0 (on_form unparsable_link)))
       (Ret (Some bad_href))
       (drv (snd (fst (launch_browser_in_incognito (D := driver) tt lost))))
       (drv (snd (fst (launch_browser_in_incognito (D := driver) tt lost))))
       (drv (after_cycle (D := driver) user secret tt lost))
       eq_refl eq_refl eq_refl eq_refl eq_refl eq_refl)
    as (e & Hnav & Hloop & _).
  exists e. split.
  - rewrite Hnav. reflexivity.
  - exact (Hloop 1).
Defined.

(** Three cycles fail in three ways (the sign-in stalls, the continue
    link leads elsewhere, no facility has a slot); the loop pauses three
    times and takes a fourth turn, which books. *)
Lemma unbounded_retry_witness :
  while_true (3 + 1) (cycle (D := driver) user secret tt) stubborn =
    prefix_events (cycles_events (D := driver) user secret 3 tt stubborn)
      (while_true 1 (cycle (D := driver) user secret tt)
         (state_after (D := driver) user secret 3 tt stubborn))
  /\ retry_sleeps (cycles_events (D := driver) user secret 3 tt stubborn) = 3
  /\ fst (fst (while_true 4 (cycle (D := driver) user secret tt) stubborn))
     = Ret (Some tt).
Proof.
  assert (Hc : forall (c : @context driver) (d : @dstate driver),
             exists d', context_close c d = (Ret tt, d')).
  { intros c d. eexists. reflexivity. }
  assert (Hb : forall (b : @browser driver) (d : @dstate driver),
             exists d', browser_close b d = (Ret tt, d')).
  { intros b d. eexists. reflexivity. }
  assert (Hf : forall i, i < 3 ->
             books (D := driver) user secret tt
               (state_after (D := driver) user secret i tt stubborn)
             = false).
  { intros i Hi. destruct i as [| [| [| i]]]; [reflexivity .. | lia]. }
  destruct (unbounded_retry (D := driver) user secret Hc Hb tt 3 stubborn Hf)
    as (H1 & H2 & _ & _).
  split; [exact (H1 1) |]. split; [exact H2 |].
  change 4 with (3 + 1). rewrite (H1 1). reflexivity.
Defined.

(** The run of [stubborn], read off: four launches, four pauses of sixty
    seconds, and one click. *)
Example stubborn_run :
  let run := login_and_schedule (D := driver) user secret 10 stubborn in
  fst (fst run) = Ret (Some tt)
  /\ retry_sleeps (snd run) = 4
  /\ clicked (snd run) = [SubmitButton].
Proof. cbv zeta. repeat split; reflexivity. Qed.

(** C1, where the claim fails.  The browser gives a page to the first
    session only; no facility has a slot.  In the first cycle the session
    [0] is acquired and closed.  In the second and third cycles line 26
    launches the browsers [1] and [2] and line 27 opens their contexts, but
    [new_page] raises at line 28, so line 129 binds nothing: the [finally]
    clause finds the variables of the first cycle and closes the session
    [0] again, twice more.  After three cycles the loop is still running,
    the session [0] has been closed three times and the browsers [1] and
    [2] have never been closed. *)
Theorem failed_acquisition_leaks_the_session :
  fst (fst (while_true 3 (cycle (D := Flaky.driver) user secret tt)
              (Flaky.start [Some nothing_free; Some nothing_free;
                            Some nothing_free])))
  = Ret None
  /\ launches (snd (while_true 3 (cycle (D := Flaky.driver) user secret tt)
                      (Flaky.start [Some nothing_free; Some nothing_free;
                                    Some nothing_free])))
     = 3
  /\ closes (snd (while_true 3 (cycle (D := Flaky.driver) user secret tt)
                    (Flaky.start [Some nothing_free; Some nothing_free;
                                  Some nothing_free])))
     = [EvContextClose (D := Flaky.driver) 0;
        EvBrowserClose (D := Flaky.driver) 0;
        EvContextClose (D := Flaky.driver) 0;
        EvBrowserClose (D := Flaky.driver) 0;
        EvContextClose (D := Flaky.driver) 0;
        EvBrowserClose (D := Flaky.driver) 0]
  /\ w_open (drv (snd (fst (while_true 3
                              (cycle (D := Flaky.driver) user secret tt)
                              (Flaky.start [Some nothing_free;
                                            Some nothing_free;
                                            Some nothing_free])))))
     = [2; 1].
Proof.
  repeat split; vm_compute; reflexivity.
Qed.

(** ** More runs on the scripted sites *)

Import MoreSamples.

(** The number of the link is written in Arabic-Indic digits. *)
Lemma search_sound_witness :
  Re.text [1633; 1634; 1635]%N <> EmptyString
  /\ decimal_digits (Re.text [1633; 1634; 1635]%N)
  /\ exists pre post,
      arabic_href
      = (pre ++ "/schedule/" ++ Re.text [1633; 1634; 1635]%N
         ++ "/continue_actions" ++ post)%string.
Proof.
  apply (search_sound arabic_href (Re.text [1633; 1634; 1635]%N)).
  reflexivity.
Defined.

(** With such a link the script goes to the page of that number. *)
Example navigate_reads_any_decimal_digits :
  fst (fst (navigate_to_appointment (D := driver) 0 (on_form arabic_site)))
  = Ret tt
  /\ In (EvGoto (D := driver) 0
           (appointment_url (Re.text [1633; 1634; 1635]%N)))
       (snd (navigate_to_appointment (D := driver) 0 (on_form arabic_site))).
Proof. split; [reflexivity |]. cbn. right. left. reflexivity. Qed.

Lemma search_complete_witness :
  Re.search ("/schedule/" ++ "12345" ++ "/continue_actions" ++ "?x=1")
  = Some "12345"
  /\ exists g',
      Re.search ("https://ais.usvisa-info.com/en-ca/niv" ++ "/schedule/"
                 ++ "12345" ++ "/continue_actions" ++ "?x=1")
      = Some g'.
Proof.
  apply (search_complete "https://ais.usvisa-info.com/en-ca/niv" "12345"
           "?x=1"); [discriminate | reflexivity].
Defined.

Lemma time_control_needs_a_date_witness :
  exists d,
    truthy d = true
    /\ In (EvClick 0 SEL_DATE)
         (snd (select_date_and_time (D := driver) 0
                 (on_facility three_facilities ottawa)))
    /\ In (EvLog INFO ("Selected available date: " ++ str_opt d))
         (snd (select_date_and_time (D := driver) 0
                 (on_facility three_facilities ottawa))).
Proof.
  apply (time_control_needs_a_date (D := driver) 0
           (on_facility three_facilities ottawa)).
  reflexivity.
Defined.

(** Regina is disabled and Calgary shows the notice: the sweep sees both
    and pauses twice. *)
Lemma exhausted_sweep_visits_every_facility_witness :
  visited (removelast (snd (check_and_reschedule (D := driver) 0
                              (on_form regina_first))))
  = [FacilityOption regina; FacilityOption calgary]
  /\ clicked (removelast (snd (check_and_reschedule (D := driver) 0
                                 (on_form regina_first))))
     = []
  /\ select_pauses (removelast (snd (check_and_reschedule (D := driver) 0
                                       (on_form regina_first))))
     = 2.
Proof.
  apply (exhausted_sweep_visits_every_facility (D := driver) 0
           (on_form regina_first)
           (map FacilityOption [regina; calgary])
           (drv (on_form regina_first))
           (snd (fst (check_and_reschedule (D := driver) 0
                        (on_form regina_first))))
           (removelast (snd (check_and_reschedule (D := driver) 0
                               (on_form regina_first)))));
    reflexivity.
Defined.

Lemma booking_follows_a_selection_witness :
  exists t0 td v button name,
    snd (check_and_reschedule (D := driver) 0 (on_form three_facilities))
    = (t0 ++ booking_tail 0 td v button name)%list.
Proof.
  apply (booking_follows_a_selection (D := driver) 0
           (on_form three_facilities)).
  reflexivity.
Defined.

Lemma closed_facility_is_skipped_witness :
  fst (fst (visit (D := driver) 0 (FacilityOption regina)
              (on_form regina_first))) = Ret None
  /\ (exists t0,
        snd (visit (D := driver) 0 (FacilityOption regina)
               (on_form regina_first))
        = (t0 ++ no_slot_tail "Regina")%list)
  /\ ~ In (EvClick 0 SEL_DATE)
         (snd (visit (D := driver) 0 (FacilityOption regina)
                 (on_form regina_first)))
  /\ existsb time_control_event
       (snd (visit (D := driver) 0 (FacilityOption regina)
               (on_form regina_first))) = false
  /\ clicked (snd (visit (D := driver) 0 (FacilityOption regina)
                     (on_form regina_first))) = [].
Proof.
  apply (closed_facility_is_skipped (D := driver) 0
           (FacilityOption regina) (on_form regina_first)
           "Regina" (Some SubmitButton)
           (on_facility regina_first regina)
           (snd (approach (D := driver) 0 (FacilityOption regina)
                   (on_form regina_first)))
           eq_refl).
  right. exists SubmitButton. split; reflexivity.
Defined.

(** The success card never shows: the cycle ends at line 40 and the loop
    goes on to a second cycle, which books. *)
Lemma sign_in_failure_retries_witness :
  while_true 2 (cycle (D := driver) user secret tt) slow =
    prefix_events
      ([EvLaunch tt HEADLESS_MODE; EvNewContext 0; EvNewPage 0]
       ++ snd (login (D := driver) user secret 0 (on_form sign_in_stalls))
       ++ [EvLog ERROR (retry_message (timeout_exceeded PAGE_TIMEOUT));
           EvContextClose 0; EvBrowserClose 0;
           EvSleep RETRY_INTERVAL])%list
      (while_true 1 (cycle (D := driver) user secret tt)
         (after_cycle (D := driver) user secret tt slow)).
Proof.
  apply (sign_in_failure_retries (D := driver) user secret tt slow 0 0 0
           (snd (fst (launch_browser_in_incognito (D := driver) tt slow)))
           {| drv := drv (snd (fst (launch_browser_in_incognito
                                      (D := driver) tt slow)));
              vars := session_locals (D := driver) 0 0 0 |}
           [EvLaunch (D := driver) tt HEADLESS_MODE;
            EvNewContext (D := driver) 0; EvNewPage (D := driver) 0]
           (snd (login (D := driver) user secret 0 (on_form sign_in_stalls)))
           (timeout_exceeded PAGE_TIMEOUT)
           (drv (snd (fst (launch_browser_in_incognito (D := driver) tt
                             slow))))
           (drv (after_cycle (D := driver) user secret tt slow))
           eq_refl eq_refl eq_refl eq_refl 1).
Defined.

Lemma loop_returns_only_after_a_booking_witness :
  exists t0 b c button,
    snd (while_true 3 (cycle (D := driver) user secret tt) lucky)
    = (t0 ++ [EvLog INFO "Appointment successfully rescheduled. Exiting.";
              EvContextClose c; EvBrowserClose b;
              EvSleep RETRY_INTERVAL])%list
    /\ In (EvElemClick button) t0.
Proof.
  apply (loop_returns_only_after_a_booking (D := driver) user secret tt 3
           lucky
           (snd (fst (while_true 3 (cycle (D := driver) user secret tt)
                        lucky)))
           (snd (while_true 3 (cycle (D := driver) user secret tt) lucky))).
  reflexivity.
Defined.

(** The browser starts but gives no context: browser [0] stays open, and
    the cycle closes nothing. *)
Lemma failed_launch_closes_nothing_witness :
  cycle (D := Crashing.driver false) user secret tt
    (Crashing.start false [Some three_facilities]) =
    (Ret Next,
     snd (fst (launch_browser_in_incognito (D := Crashing.driver false) tt
                 (Crashing.start false [Some three_facilities]))),
     [EvLaunch (D := Crashing.driver false) tt HEADLESS_MODE;
      EvNewContext (D := Crashing.driver false) 0;
      EvLog ERROR (retry_message
                     (PlaywrightError "Browser closed unexpectedly"));
      EvSleep RETRY_INTERVAL])
  /\ w_open (drv (after_cycle (D := Crashing.driver false) user secret tt
                    (Crashing.start false [Some three_facilities])))
     = [0].
Proof.
  split; [| reflexivity].
  apply (proj1 (failed_launch_closes_nothing (D := Crashing.driver false)
                  user secret tt
                  (Crashing.start false [Some three_facilities])
                  (PlaywrightError "Browser closed unexpectedly")
                  (snd (fst (launch_browser_in_incognito
                               (D := Crashing.driver false) tt
                               (Crashing.start false
                                  [Some three_facilities]))))
                  [EvLaunch (D := Crashing.driver false) tt HEADLESS_MODE;
                   EvNewContext (D := Crashing.driver false) 0]
                  eq_refl eq_refl)).
Defined.

(** Closing the context fails: the loop ends in its first cycle, with
    fuel for four more, and the browser is left open. *)
Lemma failing_close_ends_the_loop_witness :
  exists mid,
    while_true 5 (cycle (D := Crashing.driver true) user secret tt)
      (Crashing.start true [Some nothing_free; Some three_facilities]) =
      (Raise (PlaywrightError
                "Target page, context or browser has been closed"),
       {| drv := drv (snd (fst (try_except
                                  (try_suite (D := Crashing.driver true)
                                     user secret tt)
                                  except_clauses
                                  (Crashing.start true
                                     [Some nothing_free;
                                      Some three_facilities]))));
          vars := session_locals (D := Crashing.driver true) 0 0 0 |},
       ([EvLaunch (D := Crashing.driver true) tt HEADLESS_MODE;
         EvNewContext (D := Crashing.driver true) 0;
         EvNewPage (D := Crashing.driver true) 0] ++ mid
        ++ [EvContextClose (D := Crashing.driver true) 0])%list)
    /\ forallb page_event mid = true.
Proof.
  apply (failing_close_ends_the_loop (D := Crashing.driver true)
           user secret tt
           (Crashing.start true [Some nothing_free; Some three_facilities])
           0 0 0
           (snd (fst (launch_browser_in_incognito
                        (D := Crashing.driver true) tt
                        (Crashing.start true
                           [Some nothing_free; Some three_facilities]))))
           [EvLaunch (D := Crashing.driver true) tt HEADLESS_MODE;
            EvNewContext (D := Crashing.driver true) 0;
            EvNewPage (D := Crashing.driver true) 0]
           (PlaywrightError
              "Target page, context or browser has been closed")
           (drv (snd (fst (try_except
                             (try_suite (D := Crashing.driver true)
                                user secret tt)
                             except_clauses
                             (Crashing.start true
                                [Some nothing_free;
                                 Some three_facilities])))))
           eq_refl eq_refl 4).
Defined.
